(** * jira-automation.py: reconciliation of Snyk findings against Jira issues

    A shallow embedding of [src/jira-automation.py].  Python strings are
    [string], Python lists are [list], the label [set] built by
    [compare_jira_snyk] is a [gset string], the exclusion [dict] is a
    [gmap string (list string)], Python [int] offsets are [Z].  Calls to the
    Jira client, the logger and [print] are recorded in a trace of events;
    exceptions are explicit results, the [re.error] of a pattern that does
    not compile among them. *)

From Stdlib Require Import ZArith Ascii DecimalString.
From Stdlib Require String.
From stdpp Require Import base option list gmap sets strings.

(** ** Python string primitives used by the script *)

Module PyStr.

  (** [s.startswith(p)] *)
Definition startswith (s p : string) : bool := String.prefix p s.

  (** [s[:-k]] for a positive [k]: everything but the last [k] characters,
      the empty string when [s] is shorter than [k]. *)
Definition drop_last (k : nat) (s : string) : string :=
    String.substring 0 (String.length s - k) s.

  (** [s.endswith(p)] *)
Definition endswith (s p : string) : bool :=
    (String.length p <=? String.length s)%nat &&
    String.eqb
      (String.substring (String.length s - String.length p) (String.length p) s) p.

  (** [s.removesuffix(p)] *)
Definition removesuffix (s p : string) : string :=
    if negb (String.eqb p EmptyString) && endswith s p
    then drop_last (String.length p) s
    else s.

  (** [s.partition(c)] for a one-character separator [c]: the text before
      the first [c], the separator, the text after it; [s] and two empty strings when
      [c] does not occur. *)
Fixpoint partition (c : ascii) (s : string) : string * string * string :=
    match s with
    | EmptyString => (EmptyString, EmptyString, EmptyString)
    | String a rest =>
        if Ascii.eqb a c then (EmptyString, String c EmptyString, rest)
        else let '(before, sep, after) := partition c rest in
             (String a before, sep, after)
    end.

  (** [str(n)] for a natural number: its decimal digits. *)
Definition of_nat (n : nat) : string := NilEmpty.string_of_uint (Nat.to_uint n).

  (** Does character [c] occur in [s]? *)
Fixpoint contains (c : ascii) (s : string) : bool :=
    match s with
    | EmptyString => false
    | String a rest => Ascii.eqb a c || contains c rest
    end.

End PyStr.

(** ** Data model *)

(** A raw finding as the Snyk client yields it ([vulnerability.id],
    [vulnerability.issueData.title], ...).  The CVSS score is only ever
    formatted into the description, so its type is left open. *)
Record IssueData (score : Type) := {
  title : string;
  url : string;
  cvssScore : score;
  identifiers : gmap string (list string);
  severity : string
}.
Arguments title {score} _.
Arguments url {score} _.
Arguments cvssScore {score} _.
Arguments identifiers {score} _.
Arguments severity {score} _.

Record FixInfo := { fixedIn : list string }.

Record SnykIssue (score : Type) := {
  id : string;
  issueData : IssueData score;
  pkgName : string;
  pkgVersions : list string;
  fixInfo : FixInfo
}.
Arguments id {score} _.
Arguments issueData {score} _.
Arguments pkgName {score} _.
Arguments pkgVersions {score} _.
Arguments fixInfo {score} _.

(** [class VulnerabilityData]: the fields set by [__init__], read through
    the getters of the same name. *)
Record VulnerabilityData (score : Type) := {
  get_id : string;
  get_jira_snyk_id : string;
  get_title : string;
  get_url : string;
  get_project_branch : string;
  get_package_name : string;
  get_package_version : list string;
  get_fixed_in : list string;
  get_project_name : string;
  get_file_path : string;
  get_component_list : list string;
  get_cvss_score : score;
  get_identifiers : gmap string (list string);
  get_severity : string
}.
Arguments get_id {score} _.
Arguments get_jira_snyk_id {score} _.
Arguments get_title {score} _.
Arguments get_url {score} _.
Arguments get_project_branch {score} _.
Arguments get_package_name {score} _.
Arguments get_package_version {score} _.
Arguments get_fixed_in {score} _.
Arguments get_project_name {score} _.
Arguments get_file_path {score} _.
Arguments get_component_list {score} _.
Arguments get_cvss_score {score} _.
Arguments get_identifiers {score} _.
Arguments get_severity {score} _.

(** An issue returned by the tracker's search; the script reads only
    [issue.fields.labels]. *)
Record JiraIssue := { labels : list string }.

(** [VULNERABILITY_SEVERITIES] *)
Definition VULNERABILITY_SEVERITIES : list string := ["critical"; "high"].

(** ** The reconciler *)

Section Reconciler.
Context {score : Type}.

  (** The two nested loops of [compare_jira_snyk] that fill
      [jira_issue_labels]. *)
Definition add_issue_labels (jira_label_prefix : string)
      (acc : gset string) (issue : JiraIssue) : gset string :=
    foldl (fun acc label =>
             if PyStr.startswith label jira_label_prefix
             then acc ∪ {[ label ]} else acc)
          acc (labels issue).

Definition jira_issue_labels (jira_issues : list JiraIssue)
      (jira_label_prefix : string) : gset string :=
    foldl (add_issue_labels jira_label_prefix) ∅ jira_issues.

  (** [compare_jira_snyk] *)
Definition compare_jira_snyk (vulnerabilities : list (VulnerabilityData score))
      (jira_issues : list JiraIssue) (jira_label_prefix : string)
      : list (VulnerabilityData score) :=
    let jira_issue_labels := jira_issue_labels jira_issues jira_label_prefix in
    filter (fun v => get_jira_snyk_id v ∉ jira_issue_labels) vulnerabilities.

  (** A label is tracked when some issue carries it and it starts with the
      label prefix. *)
Definition tracked_label (jira_issues : list JiraIssue)
      (jira_label_prefix label : string) : Prop :=
    ∃ issue, issue ∈ jira_issues ∧ label ∈ labels issue ∧
             PyStr.startswith label jira_label_prefix = true.

End Reconciler.

(** ** Effects: the Jira client, the logger and standard output *)

(** The exceptions the script can meet.  [JIRAError] stands for any failure
    of a remote call that is not a [SystemError]; [ReError] is [re.error],
    raised by [re.search] on a pattern that does not compile. *)
Inductive exn := SystemError | TypeError | KeyError | JIRAError | ReError.

(** The dict built per finding in [create_jira_issues]; the inner dicts are
    kept as lists of key and value. *)
Module NewIssue.
Record t := {
  project : string;
  summary : string;
  description : string;
  components : list (list (string * string));
  duedate : string;
  issuetype : list (string * string);
  labels : list string
}.
End NewIssue.

(** One entry of the list returned by the client's [create_issues]: a dict,
    kept with its keys in order and its values as text. *)
Definition CreatedIssue : Type := list (string * string).

Inductive event :=
| search_issues (jql_str : string) (startAt maxResults : Z)
| create_issues (field_list : list NewIssue.t)
| add_issues_to_epic (epic_id : string) (issue_keys : list string)
| logging_info (msg : string)
| logging_error (msg : string)
| print (msg : string).

(** What the tracker answers to each call.  In one run of
    [process_vulnerabilities] the answer to a request does not depend on
    earlier requests of that run. *)
Record JIRA := {
  on_search_issues : string -> Z -> Z -> exn + list JiraIssue;
  on_create_issues : list NewIssue.t -> exn + list CreatedIssue;
  on_add_issues_to_epic : string -> list string -> exn + unit
}.

Inductive result (A : Type) :=
| Ok (a : A)
| Raised (e : exn)
| OutOfFuel.
Arguments Ok {A} _.
Arguments Raised {A} _.
Arguments OutOfFuel {A}.

(** A computation reads the trace so far and returns its result with the
    extended trace (oldest event first). *)
Definition M (A : Type) : Type := list event -> result A * list event.

Definition ret {A} (a : A) : M A := fun tr => (Ok a, tr).

Definition bind {A B} (m : M A) (k : A -> M B) : M B :=
  fun tr =>
    match m tr with
    | (Ok a, tr') => k a tr'
    | (Raised e, tr') => (Raised e, tr')
    | (OutOfFuel, tr') => (OutOfFuel, tr')
    end.

Definition raise {A} (e : exn) : M A := fun tr => (Raised e, tr).

Definition out_of_fuel {A} : M A := fun tr => (OutOfFuel, tr).

Definition emit (e : event) : M unit := fun tr => (Ok tt, tr ++ [e]).

(** A remote call: recorded, then answered by the tracker. *)
Definition call {A} (e : event) (answer : exn + A) : M A :=
  fun tr =>
    match answer with
    | inl x => (Raised x, tr ++ [e])
    | inr a => (Ok a, tr ++ [e])
    end.

(** [try: body except SystemError: handler] *)
Definition try_except_SystemError {A} (body handler : M A) : M A :=
  fun tr =>
    match body tr with
    | (Raised SystemError, tr') => handler tr'
    | r => r
    end.

#[global] Instance M_ret : MRet M := @ret.
#[global] Instance M_bind : MBind M := fun A B k m => bind m k.

(** [for x in l: body x] *)
Fixpoint for_each {A} (l : list A) (body : A -> M unit) : M unit :=
  match l with
  | [] => ret tt
  | x :: rest => body x;; for_each rest body
  end.

(** [d[key]] on a dict kept as a list of pairs. *)
Fixpoint dict_get (d : list (string * string)) (key : string) : M string :=
  match d with
  | [] => raise KeyError
  | (k, v) :: rest => if String.eqb k key then ret v else dict_get rest key
  end.

Definition newline : string := String (ascii_of_nat 10) EmptyString.

Definition dquote : string := String (ascii_of_nat 34) EmptyString.

(** [class JiraClient]: the fields set by [__init__], read through the
    getters of the same name.  [is_dry_run] is the truth value of the
    [dry_run] setting. *)
Module JiraClient.
Record t := {
  client : JIRA;
  get_jira_label_prefix : string;
  get_project_id : string;
  get_component_list : list string;
  is_dry_run : bool
}.
End JiraClient.

(** A Snyk project as [process_projects] reads it; [issues] is
    [project.issueset_aggregated.all().issues]. *)
Module Project.
Record t (score : Type) := {
  name : string;
  branch : string;
  id : string;
  organization_slug : string;
  issues : list (SnykIssue score)
}.
Arguments name {score} _.
Arguments branch {score} _.
Arguments id {score} _.
Arguments organization_slug {score} _.
Arguments issues {score} _.
End Project.

(** ** The script *)

(** Truth value of a Python list: non-empty. *)
Definition truthy {A} (l : list A) : bool :=
  match l with [] => false | _ :: _ => true end.

(** The f-string that builds [jira_snyk_id] in [list_snyk_vulnerabilities]. *)
Definition jira_snyk_id
    (jira_label_prefix project_name file_name project_branch vulnerability_id : string)
    : string :=
  jira_label_prefix +:+ project_name +:+ ":" +:+ file_name +:+ ":" +:+
  project_branch +:+ ":" +:+ vulnerability_id.

(** [parse_project_name] *)
Definition parse_project_name (project_name branch_name : string) : string :=
  PyStr.removesuffix (PyStr.partition ":"%char project_name).1.1
                     ("(" +:+ branch_name +:+ ")").

(** [parse_file_name] *)
Definition parse_file_name (project_name : string) : string :=
  (PyStr.partition ":"%char project_name).2.

Section Script.
Context {score : Type}.

(** Formatting of a float and of a list of strings inside an f-string. *)
Variable str_score : score -> string.
Variable str_list : list string -> string.

(** [(datetime.today() + timedelta(days=n)).strftime('%Y-%m-%d')] *)
Variable date_after : nat -> string.

(** [re.search(pattern, text)]: whether it finds a match, [None] when the
    pattern does not compile and [re.error] is raised. *)
Variable re_search : string -> string -> option bool.

(** [VulnerabilityData.get_jira_description] *)
Definition get_jira_description (self : VulnerabilityData score)
    (snyk_org_slug snyk_project_id : string) : string :=
  let cve := get_identifiers self !! "CVE" in
  "Found vulnerability in *" +:+ get_project_name self +:+
  "* project, in file *" +:+ get_file_path self +:+ "*, " +:+
  "in branch *" +:+ get_project_branch self +:+ "*. " +:+ newline +:+ newline +:+
  "Severity: " +:+ get_severity self +:+ ". " +:+ newline +:+ newline +:+
  "Package name: " +:+ get_package_name self +:+ " " +:+ newline +:+ newline +:+
  "Package version: " +:+ str_list (get_package_version self) +:+ " " +:+
    newline +:+ newline +:+
  "Fixed in: " +:+ str_list (get_fixed_in self) +:+ " " +:+ newline +:+ newline +:+
  "Vulnerability URL: " +:+ get_url self +:+ ". " +:+ newline +:+ newline +:+
  "CSSV score: " +:+ str_score (get_cvss_score self) +:+ ". " +:+
    newline +:+ newline +:+
  "CVE Identifier: " +:+
    match cve with Some l => str_list l | None => "None" end +:+ ". " +:+
    newline +:+ newline +:+
  "More info can be found in https://app.snyk.io/org/" +:+ snyk_org_slug +:+
  "/project/" +:+ snyk_project_id +:+ "#issue-" +:+ get_id self +:+ ". " +:+ newline.

(** [VulnerabilityData.get_jira_summary] *)
Definition get_jira_summary (self : VulnerabilityData score) : string :=
  let cve := get_identifiers self !! "CVE" in
  let summary := "Snyk - " in
  let summary :=
    match cve with
    | Some (cve0 :: _) => summary +:+ "[" +:+ cve0 +:+ "] - "
    | _ => summary
    end in
  summary +:+ "[" +:+ get_severity self +:+ "] - [" +:+ get_project_branch self +:+
  "] - " +:+ get_project_name self +:+ " - " +:+
  get_file_path self +:+ " - " +:+ get_title self.

(** [VulnerabilityData.calculate_due_date] *)
Definition calculate_due_date (self : VulnerabilityData score) : string :=
  let number_of_days := 30 in
  let number_of_days :=
    if String.eqb (get_severity self) "critical" then 7 else number_of_days in
  date_after number_of_days.

(** [JiraClient.get_component_dict_list] *)
Definition get_component_dict_list (component : string) : list (string * string) :=
  [("name", component)].

(** The dict appended to [jira_issues_to_create] for one finding. *)
Definition jira_issue (jira_project_id snyk_project_id snyk_org_slug : string)
    (vulnerability : VulnerabilityData score) : NewIssue.t :=
  {| NewIssue.project := jira_project_id;
     NewIssue.summary := get_jira_summary vulnerability;
     NewIssue.description :=
       get_jira_description vulnerability snyk_org_slug snyk_project_id;
     NewIssue.components :=
       map get_component_dict_list (get_component_list vulnerability);
     NewIssue.duedate := calculate_due_date vulnerability;
     NewIssue.issuetype := [("name", "Bug")];
     NewIssue.labels := [get_jira_snyk_id vulnerability] |}.

(** [JiraClient.create_jira_issues].  On the live path the last log line
    indexes the string [jira_epic_id] with a string, which raises
    [TypeError]. *)
Definition create_jira_issues (self : JiraClient.t)
    (vulnerabilities_to_create : list (VulnerabilityData score))
    (jira_project_id snyk_project_id snyk_org_slug jira_epic_id : string) : M unit :=
  let jira_issues_to_create :=
    map (jira_issue jira_project_id snyk_project_id snyk_org_slug)
        vulnerabilities_to_create in
  if negb (JiraClient.is_dry_run self) then
    try_except_SystemError
      (created_jira_issues ←
         call (create_issues jira_issues_to_create)
              (on_create_issues (JiraClient.client self) jira_issues_to_create);
       let issue_keys := concat (map (map fst) created_jira_issues) in
       call (add_issues_to_epic jira_epic_id issue_keys)
            (on_add_issues_to_epic (JiraClient.client self) jira_epic_id issue_keys);;
       for_each created_jira_issues (fun issue =>
         key ← dict_get issue "issue";
         emit (logging_info ("Created JIRA issue key: " +:+ key)));;
       raise TypeError)
      (emit (logging_error "failed to create jira issues"))
  else
    emit (print ("dry run. No issues created. (" +:+
                 PyStr.of_nat (length jira_issues_to_create) +:+
                 " issues would be created)")).

(** [JiraClient.list_existing_jira_issues] *)
Definition list_existing_jira_issues (self : JiraClient.t)
    (jira_query : string) (start_at max_results : Z) : M (list JiraIssue * bool) :=
  issues ← call (search_issues jira_query start_at max_results)
                (on_search_issues (JiraClient.client self)
                                  jira_query start_at max_results);
  mret (issues, false).

(** The [VulnerabilityData] built for one raw finding in the loop of
    [list_snyk_vulnerabilities]. *)
Definition vulnerability_obj
    (project_branch project_name file_name : string) (jira_client : JiraClient.t)
    (vulnerability : SnykIssue score) : VulnerabilityData score :=
  {| get_id := id vulnerability;
     get_jira_snyk_id :=
       jira_snyk_id (JiraClient.get_jira_label_prefix jira_client)
                    project_name file_name project_branch (id vulnerability);
     get_title := title (issueData vulnerability);
     get_url := url (issueData vulnerability);
     get_package_name := pkgName vulnerability;
     get_package_version := pkgVersions vulnerability;
     get_fixed_in := fixedIn (fixInfo vulnerability);
     get_project_name := project_name;
     get_project_branch := project_branch;
     get_file_path := file_name;
     get_component_list := JiraClient.get_component_list jira_client;
     get_cvss_score := cvssScore (issueData vulnerability);
     get_identifiers := identifiers (issueData vulnerability);
     get_severity := severity (issueData vulnerability) |}.

(** The body of the [for] loop of [list_snyk_vulnerabilities]. *)
Definition list_snyk_vulnerabilities_step
    (project_branch project_name file_name : string) (jira_client : JiraClient.t)
    (acc : list (VulnerabilityData score) * string) (vulnerability : SnykIssue score)
    : list (VulnerabilityData score) * string :=
  let '(patchable_vulnerabilities, jira_query) := acc in
  let jira_snyk_id :=
    jira_snyk_id (JiraClient.get_jira_label_prefix jira_client)
                 project_name file_name project_branch (id vulnerability) in
  let vulnerability_obj :=
    vulnerability_obj project_branch project_name file_name jira_client
                      vulnerability in
  (patchable_vulnerabilities ++ [vulnerability_obj],
   jira_query +:+ " labels=" +:+ dquote +:+ jira_snyk_id +:+ dquote +:+ " OR").

(** [list_snyk_vulnerabilities] *)
Definition list_snyk_vulnerabilities (vulnerabilities : list (SnykIssue score))
    (project_branch project_name file_name : string) (jira_client : JiraClient.t)
    : list (VulnerabilityData score) * string :=
  let patchable_vulnerabilities := [] in
  let jira_query := "project=" +:+ JiraClient.get_project_id jira_client +:+ " AND (" in
  let '(patchable_vulnerabilities, jira_query) :=
    foldl (list_snyk_vulnerabilities_step project_branch project_name file_name
                                          jira_client)
          (patchable_vulnerabilities, jira_query) vulnerabilities in
  let jira_query := PyStr.drop_last 2 jira_query +:+ ")" in
  (patchable_vulnerabilities, jira_query).

(** [exclude_file]: the patterns are tried in order; the first one found
    ends the loop with [True], a pattern that does not compile ends it with
    [re.error]. *)
Fixpoint exclude_file (file_name : string) (excluded_files : list string)
    : exn + bool :=
  match excluded_files with
  | [] => inr false
  | excluded_file :: rest =>
      match re_search excluded_file file_name with
      | None => inl ReError
      | Some true => inr true
      | Some false => exclude_file file_name rest
      end
  end.

(** The [while load_more] loop of [process_vulnerabilities]; [fuel] bounds
    the number of iterations. *)
Fixpoint process_vulnerabilities_loop (fuel : nat) (jira_client : JiraClient.t)
    (vulnerabilities_to_compare_list : list (VulnerabilityData score))
    (jira_query project_id snyk_org_slug jira_epic_id : string)
    (load_more : bool) (start_at max_results : Z) : M unit :=
  if load_more then
    match fuel with
    | O => out_of_fuel
    | S fuel' =>
        '(jira_issues, load_more) ←
          list_existing_jira_issues jira_client jira_query start_at max_results;
        let vulnerabilities_to_create_list :=
          compare_jira_snyk vulnerabilities_to_compare_list jira_issues
                            (JiraClient.get_jira_label_prefix jira_client) in
        start_at ←
          (if truthy vulnerabilities_to_create_list then
             create_jira_issues jira_client vulnerabilities_to_create_list
               (JiraClient.get_project_id jira_client) project_id snyk_org_slug
               jira_epic_id;;
             mret (start_at + max_results)%Z
           else mret start_at);
        process_vulnerabilities_loop fuel' jira_client
          vulnerabilities_to_compare_list jira_query project_id snyk_org_slug
          jira_epic_id load_more start_at max_results
    end
  else mret tt.

(** [process_vulnerabilities] *)
Definition process_vulnerabilities (fuel : nat) (jira_client : JiraClient.t)
    (vulnerabilities_to_compare_list : list (VulnerabilityData score))
    (jira_query project_id snyk_org_slug jira_epic_id : string) : M unit :=
  let load_more := true in
  let start_at := 0%Z in
  let max_results := 50%Z in
  process_vulnerabilities_loop fuel jira_client vulnerabilities_to_compare_list
    jira_query project_id snyk_org_slug jira_epic_id load_more start_at max_results.

(** [process_projects] *)
Definition process_projects (fuel : nat) (jira_client : JiraClient.t)
    (project : Project.t score) (exclude_files : gmap string (list string))
    (jira_epic_id : string) : M unit :=
  let project_name := parse_project_name (Project.name project) (Project.branch project) in
  let file_name := parse_file_name (Project.name project) in
  let excluded_files := exclude_files !! project_name in
  excluded ←
    match excluded_files with
    | Some excluded_files =>
        if truthy excluded_files then
          match exclude_file file_name excluded_files with
          | inl e => raise e
          | inr found => mret found
          end
        else mret false
    | None => mret false
    end;
  (if (excluded : bool)
   then emit (logging_info ("skipping file " +:+ file_name +:+
                            ", because of the record in exclude_file.json"))
   else mret tt);;
  let issue_set_issues := Project.issues project in
  if truthy issue_set_issues then
    emit (logging_info ("looking for vulnerabilities in: " +:+ project_name +:+
                        ", file: " +:+ file_name +:+
                        ", branch: " +:+ Project.branch project));;
    let '(vulnerabilities_to_compare_list, jira_query) :=
      list_snyk_vulnerabilities issue_set_issues (Project.branch project)
                                project_name file_name jira_client in
    if truthy vulnerabilities_to_compare_list then
      process_vulnerabilities fuel jira_client vulnerabilities_to_compare_list
        jira_query (Project.id project) (Project.organization_slug project)
        jira_epic_id
    else mret tt
  else mret tt.

End Script.

(** ** Reference notions used to state the properties *)

(** The tracked-issue query in the form the specification gives for it:
    [project=<projectId> AND (label="id1" OR label="id2" OR ...)]. *)
Definition spec_tracked_query (project_id : string) (identities : list string)
    : string :=
  "project=" +:+ project_id +:+ " AND (" +:+
  String.concat " OR "
    (map (fun identity => "label=" +:+ dquote +:+ identity +:+ dquote) identities) +:+
  ")".

(** The query in the form [list_snyk_vulnerabilities] produces for a
    non-empty list of identities. *)
Definition labels_query (project_id : string) (identities : list string) : string :=
  "project=" +:+ project_id +:+ " AND ( " +:+
  String.concat " OR "
    (map (fun identity => "labels=" +:+ dquote +:+ identity +:+ dquote) identities) +:+
  " )".

(** The text appended to the query by one turn of the loop of
    [list_snyk_vulnerabilities], and by all of them. *)
Definition clause (identity : string) : string :=
  " labels=" +:+ dquote +:+ identity +:+ dquote +:+ " OR".

Definition clauses (identities : list string) : string :=
  foldr (fun identity rest => clause identity +:+ rest) EmptyString identities.

(** Events that are calls to the tracker. *)
Definition is_tracker_call (e : event) : bool :=
  match e with
  | search_issues _ _ _ | create_issues _ | add_issues_to_epic _ _ => true
  | logging_info _ | logging_error _ | print _ => false
  end.

(** ** Sample runtime and inputs *)

Module Sample.

(** A pattern without metacharacters matches where it occurs literally;
    the pattern [[] does not compile. *)
Definition literal_search (pattern text : string) : option bool :=
  if String.eqb pattern "["
  then None
  else Some (match String.index 0 pattern text with
             | Some _ => true
             | None => false
             end).

(** Formatting of a list of plain strings: ['a', 'b']. *)
Definition str_list (l : list string) : string :=
  "[" +:+ String.concat ", " (map (fun s => "'" +:+ s +:+ "'") l) +:+ "]".

(** A clock stopped on 2026-01-01. *)
Definition date_after (n : nat) : string :=
  if (n =? 7)%nat then "2026-01-08" else "2026-01-31".

(** A tracker that holds [stored] and serves it in pages. *)
Definition tracker (stored : list JiraIssue) : JIRA :=
  {| on_search_issues := fun _ start_at max_results =>
       inr (take (Z.to_nat max_results) (drop (Z.to_nat start_at) stored));
     on_create_issues := fun field_list =>
       inr (map (fun fields =>
                   [("status", "Success"); ("error", "None");
                    ("issue", "PROJ-1"); ("input_fields", NewIssue.summary fields)])
                field_list);
     on_add_issues_to_epic := fun _ _ => inr tt |}.

Definition jira_client (dry_run : bool) (stored : list JiraIssue) : JiraClient.t :=
  {| JiraClient.client := tracker stored;
     JiraClient.get_jira_label_prefix := "p:";
     JiraClient.get_project_id := "PROJ";
     JiraClient.get_component_list := ["comp"];
     JiraClient.is_dry_run := dry_run |}.

(** A raw finding; the score is kept as its text. *)
Definition snyk_issue (vulnerability_id sev : string) : SnykIssue string :=
  {| id := vulnerability_id;
     issueData := {| title := "t"; url := "u"; cvssScore := "7.5";
                     identifiers := {[ "CVE" := ["CVE-1"] ]};
                     severity := sev |};
     pkgName := "pkg";
     pkgVersions := ["1.0"];
     fixInfo := {| fixedIn := ["1.1"] |} |}.

(** A finding of which only the tracking identity matters. *)
Definition finding (identity : string) : VulnerabilityData string :=
  {| get_id := "X"; get_jira_snyk_id := identity; get_title := "t";
     get_url := "u"; get_project_branch := "main"; get_package_name := "pkg";
     get_package_version := []; get_fixed_in := []; get_project_name := "org/repo";
     get_file_path := "Dockerfile"; get_component_list := [];
     get_cvss_score := "7.5"; get_identifiers := ∅; get_severity := "high" |}.

Definition project (issues : list (SnykIssue string)) : Project.t string :=
  {| Project.name := "org/repo(main):Dockerfile";
     Project.branch := "main";
     Project.id := "pid";
     Project.organization_slug := "slug";
     Project.issues := issues |}.

(** Fifty issues with labels of the integration, numbered from [first]. *)
Definition page (first : nat) : list JiraIssue :=
  map (fun n => {| labels := ["p:org/repo:Dockerfile:main:" +:+ PyStr.of_nat n] |})
      (seq first 50).

End Sample.

(** ** Start-up: settings, clients and the one project *)

(** [s.split(c)] for a one-character separator. *)
Fixpoint str_split (c : ascii) (s : string) : list string :=
  match s with
  | EmptyString => [EmptyString]
  | String a rest =>
      if Ascii.eqb a c then EmptyString :: str_split c rest
      else match str_split c rest with
           | part :: parts => String a part :: parts
           | [] => [String a EmptyString]
           end
  end.

(** Truth value of [os.environ.get(name)]: set and not empty. *)
Definition env_truthy (value : option string) : bool :=
  match value with
  | Some (String _ _) => true
  | _ => false
  end.

(** [str(value)] of [os.environ.get(name)], as the logger prints it. *)
Definition str_optional (value : option string) : string :=
  match value with
  | Some s => s
  | None => "None"
  end.

(** How reading and decoding the exclusion file can fail. *)
Inductive load_error := LoadSystemError | LoadOtherError.

(** What [main] finds around it: the environment after [load_dotenv], the
    decoded content of a file, the Snyk project behind a token, organisation
    id and project id, and the tracker behind a server and a token. *)
Record World (score : Type) := {
  environ : gmap string string;
  read_json : string -> load_error + gmap string (list string);
  snyk_client : string -> exn + (string -> string -> exn + Project.t score);
  jira_connect : string -> string -> exn + JIRA
}.
Arguments environ {score} _.
Arguments read_json {score} _.
Arguments snyk_client {score} _.
Arguments jira_connect {score} _.

(** How [main] ends when no exception of the tracker escapes: [sys.exit]
    with a code, an exception while the exclusion file is read, or a normal
    return. *)
Inductive exit_status := Exited (code : Z) | Uncaught | Returned.

(** [logging.error(msg); sys.exit(code)] *)
Definition fatal (msg : string) (code : Z) : M exit_status :=
  emit (logging_error msg);; mret (Exited code).

(** The pattern [main] repeats for each required setting: read it, log its
    value, and leave with code 2 and [msg] when it is missing or empty. *)
Definition required {score} (w : World score) (name msg : string)
    (k : string -> M exit_status) : M exit_status :=
  let value := environ w !! name in
  emit (logging_info (str_optional value));;
  if env_truthy value then k (default EmptyString value)
  else fatal msg 2.

(** [load_mapping]; [os.path.isfile] has no effect on it. *)
Definition load_mapping {score} (w : World score) (file_path : string)
    (k : gmap string (list string) -> M exit_status) : M exit_status :=
  match read_json w file_path with
  | inr component_maping => k component_maping
  | inl LoadSystemError => fatal "failed to load file" 1
  | inl LoadOtherError => mret Uncaught
  end.

(** [os.environ.get(name) if os.environ.get(name) else fallback] *)
Definition setting_or {score} (w : World score) (name fallback : string) : string :=
  if env_truthy (environ w !! name)
  then default EmptyString (environ w !! name)
  else fallback.

(** The names of the required settings, in the order [main] checks them. *)
Definition required_settings : list string :=
  ["SNYK_API_TOKEN"; "JIRA_API_TOKEN"; "SNYK_ORG_ID"; "JIRA_SERVER";
   "JIRA_PROJECT_ID"; "JIRA_COMPONENT_NAMES"; "JIRA_EPIC_ID"; "SNYK_PROJECT_ID"].

Section Main.
Context {score : Type}.
Variable str_score : score -> string.
Variable str_list : list string -> string.
Variable date_after : nat -> string.
Variable re_search : string -> string -> option bool.

(** [main] *)
Definition main (fuel : nat) (w : World score) : M exit_status :=
  let exclude_files_file_path :=
    setting_or w "EXCLUDE_FILES_FILE_PATH" "exclude_files.json" in
  load_mapping w exclude_files_file_path (fun exclude_files_mapping =>
  required w "SNYK_API_TOKEN" "SNYK_API_TOKEN env variable not defined"
    (fun snyk_api_token =>
  required w "JIRA_API_TOKEN" "JIRA_API_TOKEN env variable not defined"
    (fun jira_api_token =>
  required w "SNYK_ORG_ID" "SNYK_ORG_ID env variable not defined"
    (fun snyk_org_id =>
  required w "JIRA_SERVER" "JIRA_SERVER env variable not defined"
    (fun jira_server =>
  required w "JIRA_PROJECT_ID" "JIRA_PROJECT_ID env variable not defined"
    (fun jira_project_id =>
  let jira_label_prefix :=
    setting_or w "JIRA_LABEL_PREFIX" "snyk-jira-integration:" in
  required w "JIRA_COMPONENT_NAMES" "JIRA_COMPONENT_NAMES not defined"
    (fun jira_component_list =>
  required w "JIRA_EPIC_ID" "JIRA_PROJECT_ID env variable not defined"
    (fun jira_epic_id =>
  required w "SNYK_PROJECT_ID" "SNYK_PROJECT_ID env variable not defined"
    (fun snyk_project_id =>
  let dry_run := environ w !! "DRY_RUN" in
  (if env_truthy dry_run then emit (logging_info "DRY_RUN is enabled")
   else mret tt);;
  match snyk_client w snyk_api_token with
  | inl SystemError => fatal "failed to create snyk client" 1
  | inl e => raise e
  | inr projects =>
      match projects snyk_org_id snyk_project_id with
      | inl e => raise e
      | inr project =>
          match jira_connect w jira_server jira_api_token with
          | inl SystemError => fatal "failed to create jira client" 1
          | inl e => raise e
          | inr jira =>
              let jira_client :=
                {| JiraClient.client := jira;
                   JiraClient.get_jira_label_prefix := jira_label_prefix;
                   JiraClient.get_project_id := jira_project_id;
                   JiraClient.get_component_list :=
                     str_split "," jira_component_list;
                   JiraClient.is_dry_run := env_truthy dry_run |} in
              process_projects str_score str_list date_after re_search fuel
                jira_client project exclude_files_mapping jira_epic_id;;
              mret Returned
          end
      end
  end))))))))).

End Main.

(** ** Reading traces *)

(** A computation is local when what it returns and what it records do not
    depend on the trace it starts from. *)
Definition local {A} (m : M A) : Prop :=
  ∀ tr, m tr = ((m []).1, tr ++ (m []).2).

(** A computation is silent for a class of events when it records none of
    them. *)
Definition silent (P : event -> bool) {A} (m : M A) : Prop :=
  ∀ tr, filter P (m tr).2 = filter P tr.

(** A computation finishes when it does not run out of fuel. *)
Definition finishes {A} (m : M A) : Prop :=
  ∀ tr, (m tr).1 ≠ OutOfFuel.

(** Calls that change the tracker. *)
Definition is_mutation (e : event) : bool :=
  match e with
  | create_issues _ | add_issues_to_epic _ _ => true
  | search_issues _ _ _ | logging_info _ | logging_error _ | print _ => false
  end.

(** Searches of the tracker. *)
Definition is_search (e : event) : bool :=
  match e with
  | search_issues _ _ _ => true
  | _ => false
  end.

(** A world whose settings are [settings], whose exclusion file decodes to
    [mapping] and whose tracker holds [stored]. *)
Definition sample_world (settings : gmap string string)
    (mapping : gmap string (list string)) (issues : list (SnykIssue string))
    (stored : list JiraIssue) : World string :=
  {| environ := settings;
     read_json := fun _ => inr mapping;
     snyk_client := fun _ => inr (fun _ _ => inr (Sample.project issues));
     jira_connect := fun _ _ => inr (Sample.tracker stored) |}.

(** Settings with every required name set. *)
Definition sample_settings : gmap string string :=
  list_to_map
    [("SNYK_API_TOKEN", "snyk-secret"); ("JIRA_API_TOKEN", "jira-secret");
     ("SNYK_ORG_ID", "org"); ("JIRA_SERVER", "https://jira.example");
     ("JIRA_PROJECT_ID", "PROJ"); ("JIRA_COMPONENT_NAMES", "comp1,comp2");
     ("JIRA_EPIC_ID", "EPIC-1"); ("SNYK_PROJECT_ID", "pid")].

(** A tracker that gives fixed answers, and a live client on it. *)
Definition sample_tracker_with (search : exn + list JiraIssue)
    (create : exn + list CreatedIssue) (link : exn + unit) : JIRA :=
  {| on_search_issues := fun _ _ _ => search;
     on_create_issues := fun _ => create;
     on_add_issues_to_epic := fun _ _ => link |}.

Definition sample_live_client (jira : JIRA) : JiraClient.t :=
  {| JiraClient.client := jira;
     JiraClient.get_jira_label_prefix := "p:";
     JiraClient.get_project_id := "PROJ";
     JiraClient.get_component_list := ["comp"];
     JiraClient.is_dry_run := false |}.

(** ** The created entries *)

(** [d.get(key)] on a dict kept as a list of pairs. *)
Fixpoint dict_lookup (d : list (string * string)) (key : string) : option string :=
  match d with
  | [] => None
  | (k, v) :: rest => if String.eqb k key then Some v else dict_lookup rest key
  end.

(** The values under [issue] of the created entries that come before the
    first entry without that key. *)
Fixpoint issues_before_missing (created : list CreatedIssue) : list string :=
  match created with
  | [] => []
  | entry :: rest =>
      match dict_lookup entry "issue" with
      | Some key => key :: issues_before_missing rest
      | None => []
      end
  end.

(** Every created entry has the key [issue]. *)
Definition all_have_issue (created : list CreatedIssue) : bool :=
  forallb (fun entry => bool_decide (is_Some (dict_lookup entry "issue"))) created.

(** A creation call with a request whose components are not [expected]. *)
Definition other_components (expected : list (list (string * string)))
    (e : event) : bool :=
  match e with
  | create_issues field_list =>
      negb (forallb (fun fields =>
                       bool_decide (NewIssue.components fields = expected))
                    field_list)
  | _ => false
  end.

(** * Properties *)

(** A decidable statement about concrete data is settled by evaluation. *)
Ltac eval_decide := apply (bool_decide_unpack _); vm_compute; exact I.

(** Case analysis on membership in a concrete list. *)
Ltac each_member v H :=
  intros v H;
  repeat (apply elem_of_cons in H as [->|H]);
  [..|by apply elem_of_nil in H].

(** ** String lemmas *)

Lemma string_app_nil_l (t : string) : EmptyString +:+ t = t.
Proof. reflexivity. Qed.

Lemma string_app_cons (a : ascii) (s t : string) :
  String a s +:+ t = String a (s +:+ t).
Proof. reflexivity. Qed.

Lemma string_length_app (s t : string) :
  String.length (s +:+ t) = String.length s + String.length t.
Proof.
  induction s as [|a s IH]; [done|].
  rewrite string_app_cons. simpl. by rewrite IH.
Qed.

Lemma substring_app_l (s t : string) :
  String.substring 0 (String.length s) (s +:+ t) = s.
Proof.
  induction s as [|a s IH].
  - rewrite string_app_nil_l. by destruct t.
  - rewrite string_app_cons. simpl. by rewrite IH.
Qed.

Lemma drop_last_app (s t : string) :
  PyStr.drop_last (String.length t) (s +:+ t) = s.
Proof.
  unfold PyStr.drop_last. rewrite string_length_app.
  replace (String.length s + String.length t - String.length t)
    with (String.length s) by lia.
  apply substring_app_l.
Qed.

Lemma string_app_assoc (s t u : string) : (s +:+ t) +:+ u = s +:+ (t +:+ u).
Proof.
  induction s as [|a s IH]; [done|].
  rewrite !string_app_cons. by rewrite IH.
Qed.

Lemma string_app_inv_head (p s t : string) : p +:+ s = p +:+ t -> s = t.
Proof. apply String.app_inj. Qed.

(** Two texts free of [c], each followed by [c], split a string the same way. *)
Lemma string_app_sep_inj (c : ascii) (s1 s2 r1 r2 : string) :
  PyStr.contains c s1 = false -> PyStr.contains c s2 = false ->
  s1 +:+ String c r1 = s2 +:+ String c r2 -> s1 = s2 /\ r1 = r2.
Proof.
  revert s2. induction s1 as [|a s1 IH]; intros [|b s2];
    rewrite ?string_app_nil_l, ?string_app_cons; simpl.
  - by intros _ _ [= ->].
  - intros _ Hb [= <- _]. by rewrite Ascii.eqb_refl in Hb.
  - intros Ha _ [= -> _]. by rewrite Ascii.eqb_refl in Ha.
  - intros Ha Hb [= -> H].
    apply orb_false_iff in Ha as [_ Ha]. apply orb_false_iff in Hb as [_ Hb].
    destruct (IH s2 Ha Hb H) as [-> ->]. done.
Qed.

(** ** The reconciler *)

Section ReconcilerFacts.
Context {score : Type}.
Implicit Types (v : VulnerabilityData score) (issue : JiraIssue).
Implicit Types (acc : gset string) (label prefix : string).

(** The inner loop adds exactly the labels of the issue that start with the
    prefix. *)
Lemma elem_of_add_issue_labels prefix acc issue label :
  label ∈ add_issue_labels prefix acc issue ↔
  label ∈ acc ∨ (label ∈ labels issue ∧ PyStr.startswith label prefix = true).
Proof.
  unfold add_issue_labels. generalize (labels issue) as ls. intros ls.
  revert acc. induction ls as [|l ls IH]; intros acc; simpl.
  - rewrite elem_of_nil. tauto.
  - rewrite IH, elem_of_cons. destruct (PyStr.startswith l prefix) eqn:Hl.
    + rewrite elem_of_union, elem_of_singleton. intuition (subst; auto).
    + intuition (subst; auto; congruence).
Qed.

Lemma elem_of_foldl_add_issue_labels prefix acc (jira_issues : list JiraIssue) label :
  label ∈ foldl (add_issue_labels prefix) acc jira_issues ↔
  label ∈ acc ∨ tracked_label jira_issues prefix label.
Proof.
  revert acc. induction jira_issues as [|issue rest IH]; intros acc; simpl.
  - split; [auto|]. intros [?|(issue & Hin & _)]; [done|]. by apply elem_of_nil in Hin.
  - rewrite IH, elem_of_add_issue_labels. unfold tracked_label.
    setoid_rewrite elem_of_cons. split.
    + intros [[?|[? ?]]|(i & ? & ? & ?)]; eauto 8.
    + intros [?|(i & [->|?] & ? & ?)]; eauto 8.
Qed.

(** The set built by [compare_jira_snyk] holds exactly the tracked labels. *)
Lemma elem_of_jira_issue_labels (jira_issues : list JiraIssue) prefix label :
  label ∈ jira_issue_labels jira_issues prefix ↔
  tracked_label jira_issues prefix label.
Proof.
  unfold jira_issue_labels. rewrite elem_of_foldl_add_issue_labels.
  rewrite elem_of_empty. tauto.
Qed.

Lemma elem_of_compare_jira_snyk (vulnerabilities : list (VulnerabilityData score))
    (jira_issues : list JiraIssue) prefix v :
  v ∈ compare_jira_snyk vulnerabilities jira_issues prefix ↔
  v ∈ vulnerabilities ∧ ¬ tracked_label jira_issues prefix (get_jira_snyk_id v).
Proof.
  unfold compare_jira_snyk. rewrite list_elem_of_filter.
  rewrite elem_of_jira_issue_labels. tauto.
Qed.

Lemma compare_jira_snyk_all_tracked (vulnerabilities : list (VulnerabilityData score))
    (jira_issues : list JiraIssue) prefix :
  (∀ v, v ∈ vulnerabilities →
        tracked_label jira_issues prefix (get_jira_snyk_id v)) →
  compare_jira_snyk vulnerabilities jira_issues prefix = [].
Proof.
  intros Hall. unfold compare_jira_snyk.
  induction vulnerabilities as [|v vs IH]; [done|].
  rewrite filter_cons_False.
  - apply IH. intros w Hw. apply Hall. by right.
  - intros Hnot. apply Hnot, elem_of_jira_issue_labels, Hall. by left.
Qed.

Lemma compare_jira_snyk_none_tracked (vulnerabilities : list (VulnerabilityData score))
    (jira_issues : list JiraIssue) prefix :
  (∀ v, v ∈ vulnerabilities →
        ¬ tracked_label jira_issues prefix (get_jira_snyk_id v)) →
  compare_jira_snyk vulnerabilities jira_issues prefix = vulnerabilities.
Proof.
  intros Hnone. unfold compare_jira_snyk.
  induction vulnerabilities as [|v vs IH]; [done|].
  rewrite filter_cons_True.
  - f_equal. apply IH. intros w Hw. apply Hnone. by right.
  - rewrite elem_of_jira_issue_labels. apply Hnone. by left.
Qed.

(** C1. Set-difference correctness of [compare_jira_snyk]: when the tracked
    issues carry, among their labels that start with the prefix, the identity
    of each of the findings F1..Fk and of none of F(k+1)..Fn, the result on
    F1..Fn is exactly F(k+1)..Fn; and in general a finding is in the result
    if and only if it is in the input and its tracking identity is not a
    label, starting with the prefix, of any tracked issue. *)
Theorem compare_jira_snyk_set_difference
    (tracked fresh : list (VulnerabilityData score))
    (jira_issues : list JiraIssue) prefix :
  (∀ v, v ∈ tracked → tracked_label jira_issues prefix (get_jira_snyk_id v)) →
  (∀ v, v ∈ fresh → ¬ tracked_label jira_issues prefix (get_jira_snyk_id v)) →
  compare_jira_snyk (tracked ++ fresh) jira_issues prefix = fresh ∧
  ∀ vulnerabilities v,
    v ∈ compare_jira_snyk vulnerabilities jira_issues prefix ↔
    v ∈ vulnerabilities ∧
    ¬ ∃ issue, issue ∈ jira_issues ∧ get_jira_snyk_id v ∈ labels issue ∧
               PyStr.startswith (get_jira_snyk_id v) prefix = true.
Proof.
  intros Htracked Hfresh. split.
  - pose proof (compare_jira_snyk_all_tracked tracked jira_issues prefix Htracked) as H1.
    pose proof (compare_jira_snyk_none_tracked fresh jira_issues prefix Hfresh) as H2.
    unfold compare_jira_snyk in *. by rewrite filter_app, H1, H2.
  - intros vulnerabilities v. apply elem_of_compare_jira_snyk.
Qed.

(** C2. Idempotence: when every finding's tracking identity starts with the
    label prefix and is a label of some tracked issue, [compare_jira_snyk]
    returns the empty list. *)
Theorem compare_jira_snyk_idempotent
    (vulnerabilities : list (VulnerabilityData score))
    (jira_issues : list JiraIssue) prefix :
  (∀ v, v ∈ vulnerabilities →
        PyStr.startswith (get_jira_snyk_id v) prefix = true ∧
        ∃ issue, issue ∈ jira_issues ∧ get_jira_snyk_id v ∈ labels issue) →
  compare_jira_snyk vulnerabilities jira_issues prefix = [].
Proof.
  intros Hall. apply compare_jira_snyk_all_tracked.
  intros v Hv. destruct (Hall v Hv) as (Hp & issue & Hin & Hl).
  exists issue. auto.
Qed.

(** C10. The result of [compare_jira_snyk] is a subsequence of the input
    findings, in their original order: nothing is reordered, duplicated or
    introduced. *)
Theorem compare_jira_snyk_sublist
    (vulnerabilities : list (VulnerabilityData score))
    (jira_issues : list JiraIssue) prefix :
  compare_jira_snyk vulnerabilities jira_issues prefix `sublist_of` vulnerabilities.
Proof. unfold compare_jira_snyk. apply sublist_filter. Qed.

End ReconcilerFacts.

(** The set difference on three findings of which two are tracked. *)
Lemma compare_jira_snyk_set_difference_witness :
  compare_jira_snyk
    ([Sample.finding "p:a"; Sample.finding "p:b"] ++ [Sample.finding "p:c"])
    [ {| labels := ["p:a"; "unrelated"] |}; {| labels := ["p:b"] |} ] "p:"
  = [Sample.finding "p:c"].
Proof.
  refine (proj1 (compare_jira_snyk_set_difference
                   [Sample.finding "p:a"; Sample.finding "p:b"]
                   [Sample.finding "p:c"] _ "p:" _ _)).
  - each_member v Hv; apply elem_of_jira_issue_labels; eval_decide.
  - each_member v Hv; rewrite <- elem_of_jira_issue_labels; eval_decide.
Defined.

(** Two findings, both tracked: nothing is left to create. *)
Lemma compare_jira_snyk_idempotent_witness :
  compare_jira_snyk
    [Sample.finding "p:a"; Sample.finding "p:b"]
    [ {| labels := ["p:a"; "unrelated"] |}; {| labels := ["p:b"] |} ] "p:"
  = [].
Proof.
  apply compare_jira_snyk_idempotent.
  each_member v Hv; (split; [reflexivity|]).
  - exists {| labels := ["p:a"; "unrelated"] |}. split; repeat constructor.
  - exists {| labels := ["p:b"] |}. split; repeat constructor.
Defined.

(** ** The identity and the query *)

Section QueryFacts.
Context {score : Type}.
Implicit Types (jira_client : JiraClient.t) (vulnerabilities : list (SnykIssue score)).

Lemma string_app_nil_r (s : string) : s +:+ EmptyString = s.
Proof.
  induction s as [|a s IH]; [done|]. by rewrite string_app_cons, IH.
Qed.

Lemma foldl_list_snyk_vulnerabilities_step
    project_branch project_name file_name jira_client vulnerabilities
    (patchable : list (VulnerabilityData score)) (jira_query : string) :
  foldl (list_snyk_vulnerabilities_step project_branch project_name file_name
                                        jira_client)
        (patchable, jira_query) vulnerabilities
  = (patchable ++
       map (vulnerability_obj project_branch project_name file_name jira_client)
           vulnerabilities,
     jira_query +:+
       clauses (map (fun v => jira_snyk_id
                                (JiraClient.get_jira_label_prefix jira_client)
                                project_name file_name project_branch (id v))
                    vulnerabilities)).
Proof.
  revert patchable jira_query.
  induction vulnerabilities as [|v vs IH]; intros patchable jira_query; simpl.
  - by rewrite app_nil_r, string_app_nil_r.
  - rewrite IH. f_equal.
    + by rewrite <- app_assoc.
    + unfold clause. by rewrite !string_app_assoc.
Qed.

(** The clauses of a non-empty list are the [OR]-separated label tests with
    a space in front and a dangling [OR] behind. *)
Lemma clauses_cons (identity : string) (identities : list string) :
  clauses (identity :: identities)
  = (" " +:+
     String.concat " OR "
       (map (fun i => "labels=" +:+ dquote +:+ i +:+ dquote) (identity :: identities)) +:+
     " ") +:+ "OR".
Proof.
  revert identity. induction identities as [|j l IH]; intros i.
  - simpl. unfold clause. by rewrite string_app_nil_r, !string_app_assoc.
  - change (clauses (i :: j :: l)) with (clause i +:+ clauses (j :: l)).
    rewrite IH. unfold clause.
    change (String.concat " OR "
              (map (fun i => "labels=" +:+ dquote +:+ i +:+ dquote) (i :: j :: l)))
      with (("labels=" +:+ dquote +:+ i +:+ dquote) +:+ " OR " +:+
            String.concat " OR "
              (map (fun i => "labels=" +:+ dquote +:+ i +:+ dquote) (j :: l))).
    by rewrite !string_app_assoc.
Qed.

Lemma list_snyk_vulnerabilities_fst
    vulnerabilities project_branch project_name file_name jira_client :
  (list_snyk_vulnerabilities vulnerabilities project_branch project_name
                             file_name jira_client).1
  = map (vulnerability_obj project_branch project_name file_name jira_client)
        vulnerabilities.
Proof.
  unfold list_snyk_vulnerabilities.
  by rewrite foldl_list_snyk_vulnerabilities_step.
Qed.

Lemma list_snyk_vulnerabilities_snd
    vulnerabilities project_branch project_name file_name jira_client :
  (list_snyk_vulnerabilities vulnerabilities project_branch project_name
                             file_name jira_client).2
  = PyStr.drop_last 2
      (("project=" +:+ JiraClient.get_project_id jira_client +:+ " AND (") +:+
       clauses (map (fun v => jira_snyk_id
                                (JiraClient.get_jira_label_prefix jira_client)
                                project_name file_name project_branch (id v))
                    vulnerabilities)) +:+ ")".
Proof.
  unfold list_snyk_vulnerabilities.
  by rewrite foldl_list_snyk_vulnerabilities_step.
Qed.

(** C6, as the code has it.  For a non-empty list of raw findings the
    tracking identities are the label prefix followed by artifact name, file
    path, branch and scanner id joined with colons, and the query is exactly
    [project=<projectId> AND ( labels="id1" OR labels="id2" OR ... )]: the
    field is [labels], a space follows the opening parenthesis and precedes
    the closing one, and no [OR] trails. *)
Theorem list_snyk_vulnerabilities_query
    vulnerabilities project_branch project_name file_name jira_client :
  vulnerabilities ≠ [] →
  let r := list_snyk_vulnerabilities vulnerabilities project_branch project_name
                                     file_name jira_client in
  map get_jira_snyk_id r.1
  = map (fun v => jira_snyk_id (JiraClient.get_jira_label_prefix jira_client)
                               project_name file_name project_branch (id v))
        vulnerabilities ∧
  r.2 = labels_query (JiraClient.get_project_id jira_client)
                     (map get_jira_snyk_id r.1).
Proof.
  intros Hne r. subst r.
  assert (map get_jira_snyk_id
            (list_snyk_vulnerabilities vulnerabilities project_branch project_name
                                       file_name jira_client).1
          = map (fun v => jira_snyk_id (JiraClient.get_jira_label_prefix jira_client)
                                       project_name file_name project_branch (id v))
                vulnerabilities) as Hids.
  { rewrite list_snyk_vulnerabilities_fst, map_map. done. }
  split; [exact Hids|].
  rewrite Hids, list_snyk_vulnerabilities_snd.
  destruct vulnerabilities as [|v vs]; [done|].
  rewrite map_cons, clauses_cons, <- string_app_assoc.
  rewrite (drop_last_app _ "OR").
  unfold labels_query. by rewrite !string_app_assoc.
Qed.

(** The builder on the empty list: no finding, and the opening text with
    its last two characters cut and a closing parenthesis added. *)
Lemma list_snyk_vulnerabilities_nil
    project_branch project_name file_name jira_client :
  list_snyk_vulnerabilities (score:=score) [] project_branch project_name
                            file_name jira_client
  = ([], "project=" +:+ JiraClient.get_project_id jira_client +:+ " AND)").
Proof.
  unfold list_snyk_vulnerabilities. simpl. f_equal.
  change ("project=" +:+ JiraClient.get_project_id jira_client +:+ " AND (")
    with ("project=" +:+ JiraClient.get_project_id jira_client +:+ " AND" +:+ " (").
  rewrite <- !string_app_assoc. rewrite (drop_last_app _ " (").
  by rewrite !string_app_assoc.
Qed.

End QueryFacts.

(** The query for scanner ids [A] and [B]. *)
Lemma list_snyk_vulnerabilities_query_witness :
  (list_snyk_vulnerabilities
     [Sample.snyk_issue "A" "high"; Sample.snyk_issue "B" "high"]
     "main" "org/repo" "Dockerfile" (Sample.jira_client true [])).2
  = "project=PROJ AND ( labels=" +:+ dquote +:+ "p:org/repo:Dockerfile:main:A" +:+
    dquote +:+ " OR labels=" +:+ dquote +:+ "p:org/repo:Dockerfile:main:B" +:+
    dquote +:+ " )".
Proof.
  refine (eq_trans
            (proj2 (list_snyk_vulnerabilities_query
                      [Sample.snyk_issue "A" "high"; Sample.snyk_issue "B" "high"]
                      "main" "org/repo" "Dockerfile" (Sample.jira_client true []) _))
            _).
  - discriminate.
  - vm_compute. reflexivity.
Defined.

(** C6 fails as stated: for scanner ids [A] and [B], prefix [p:] and project
    [PROJ] the query built by the code is not the specification's form over
    the findings' identities. *)
Lemma list_snyk_vulnerabilities_query_not_spec_form :
  let r := list_snyk_vulnerabilities
             [Sample.snyk_issue "A" "high"; Sample.snyk_issue "B" "high"]
             "main" "org/repo" "Dockerfile" (Sample.jira_client true []) in
  r.2 ≠ spec_tracked_query "PROJ" (map get_jira_snyk_id r.1) ∧
  r.2 ≠ "project=PROJ AND (label=" +:+ dquote +:+ "p:A" +:+ dquote +:+
        " OR label=" +:+ dquote +:+ "p:B" +:+ dquote +:+ ")".
Proof. vm_compute. split; discriminate. Qed.

(** ** Tracking identities *)

(** C8 fails as stated: a colon inside a component moves the boundary
    between components, so two distinct tuples share one identity. *)
Lemma jira_snyk_id_collision :
  ("org/repo", "a:b", "main", "SNYK-1") ≠ ("org/repo", "a", "b:main", "SNYK-1") ∧
  jira_snyk_id "p:" "org/repo" "a:b" "main" "SNYK-1"
  = jira_snyk_id "p:" "org/repo" "a" "b:main" "SNYK-1".
Proof. split; [discriminate|reflexivity]. Qed.

(** C8, as the code has it.  Two distinct tuples (artifact name, file path,
    branch, scanner id) whose artifact names, file paths and branches hold no
    colon get distinct tracking identities under the same label prefix. *)
Theorem jira_snyk_id_injective
    (jira_label_prefix n1 f1 b1 i1 n2 f2 b2 i2 : string) :
  PyStr.contains ":" n1 = false → PyStr.contains ":" f1 = false →
  PyStr.contains ":" b1 = false →
  PyStr.contains ":" n2 = false → PyStr.contains ":" f2 = false →
  PyStr.contains ":" b2 = false →
  (n1, f1, b1, i1) ≠ (n2, f2, b2, i2) →
  jira_snyk_id jira_label_prefix n1 f1 b1 i1
  ≠ jira_snyk_id jira_label_prefix n2 f2 b2 i2.
Proof.
  intros Hn1 Hf1 Hb1 Hn2 Hf2 Hb2 Hne Heq. apply Hne. clear Hne.
  unfold jira_snyk_id in Heq. apply string_app_inv_head in Heq.
  apply (string_app_sep_inj ":" n1 n2) in Heq as [-> Heq]; [|done..].
  apply (string_app_sep_inj ":" f1 f2) in Heq as [-> Heq]; [|done..].
  apply (string_app_sep_inj ":" b1 b2) in Heq as [-> ->]; done.
Qed.

(** The same finding on two branches has two identities. *)
Lemma jira_snyk_id_injective_witness :
  jira_snyk_id "p:" "org/repo" "Dockerfile" "main" "SNYK-1"
  ≠ jira_snyk_id "p:" "org/repo" "Dockerfile" "release" "SNYK-1".
Proof.
  apply jira_snyk_id_injective; try reflexivity. discriminate.
Defined.

(** ** Issue creation, paging and orchestration *)

Section RunFacts.
Context {score : Type}.
Variable str_score : score -> string.
Variable str_list : list string -> string.
Variable date_after : nat -> string.
Variable re_search : string -> string -> option bool.

Lemma filter_is_tracker_call_app (tr out : list event) :
  filter is_tracker_call out = [] →
  filter is_tracker_call (tr ++ out) = filter is_tracker_call tr.
Proof. intros H. by rewrite filter_app, H, app_nil_r. Qed.

(** C9. With the dry-run flag set, [create_jira_issues] succeeds with one
    new event, the printed report, whose count is the number of findings
    passed in; it records no create call and no link-to-epic call. *)
Theorem create_jira_issues_dry_run (self : JiraClient.t)
    (vulnerabilities_to_create : list (VulnerabilityData score))
    (jira_project_id snyk_project_id snyk_org_slug jira_epic_id : string)
    (tr : list event) :
  JiraClient.is_dry_run self = true →
  let run := create_jira_issues str_score str_list date_after self
               vulnerabilities_to_create jira_project_id snyk_project_id
               snyk_org_slug jira_epic_id tr in
  run = (Ok tt,
         tr ++ [print ("dry run. No issues created. (" +:+
                       PyStr.of_nat (length vulnerabilities_to_create) +:+
                       " issues would be created)")]) ∧
  filter is_tracker_call run.2 = filter is_tracker_call tr.
Proof.
  intros Hdry run. subst run. unfold create_jira_issues.
  rewrite Hdry. simpl. unfold emit. rewrite length_map. split; [done|].
  simpl. by apply filter_is_tracker_call_app.
Qed.

(** Whatever the tracker answers, the loop of [process_vulnerabilities]
    runs its body once: one search at offset 0 with page size 50, then at
    most one call of [create_jira_issues]. *)
Lemma process_vulnerabilities_one_iteration (fuel : nat) (jira_client : JiraClient.t)
    (vulnerabilities_to_compare_list : list (VulnerabilityData score))
    (jira_query project_id snyk_org_slug jira_epic_id : string) (tr : list event) :
  process_vulnerabilities str_score str_list date_after (S fuel) jira_client
    vulnerabilities_to_compare_list jira_query project_id snyk_org_slug
    jira_epic_id tr
  = match on_search_issues (JiraClient.client jira_client) jira_query 0 50 with
    | inl e => (Raised e, tr ++ [search_issues jira_query 0 50])
    | inr jira_issues =>
        let vulnerabilities_to_create_list :=
          compare_jira_snyk vulnerabilities_to_compare_list jira_issues
                            (JiraClient.get_jira_label_prefix jira_client) in
        if truthy vulnerabilities_to_create_list then
          create_jira_issues str_score str_list date_after jira_client
            vulnerabilities_to_create_list (JiraClient.get_project_id jira_client)
            project_id snyk_org_slug jira_epic_id
            (tr ++ [search_issues jira_query 0 50])
        else (Ok tt, tr ++ [search_issues jira_query 0 50])
    end.
Proof.
  unfold process_vulnerabilities. simpl.
  unfold list_existing_jira_issues, mbind, M_bind, bind, call.
  destruct (on_search_issues _ _ _ _) as [e|jira_issues]; [done|].
  simpl. destruct (truthy _); [|by destruct fuel].
  destruct (create_jira_issues _ _ _ _ _ _ _ _ _ _) as [[[]| |] tr'];
    by destruct fuel.
Qed.

(** C7, as the code has it.  On the empty list the builder returns no
    finding and the text [project=<projectId> AND)]; the orchestrator does not
    use it: for a project without findings [process_projects] records no call
    to the tracker.  It returns normally when the exclusion test of the
    artifact does, and when a pattern of the artifact does not compile the
    [re.error] of the test leaves it before anything is recorded. *)
Theorem empty_findings_no_query (jira_client : JiraClient.t)
    (project_branch project_name file_name : string) :
  list_snyk_vulnerabilities (score:=score) [] project_branch project_name
                            file_name jira_client
  = ([], "project=" +:+ JiraClient.get_project_id jira_client +:+ " AND)") ∧
  ∀ (fuel : nat) (project : Project.t score)
    (exclude_files : gmap string (list string)) (jira_epic_id : string)
    (tr : list event),
    Project.issues project = [] →
    let run := process_projects str_score str_list date_after re_search fuel
                 jira_client project exclude_files jira_epic_id tr in
    filter is_tracker_call run.2 = filter is_tracker_call tr ∧
    match exclude_files !! parse_project_name (Project.name project)
                                              (Project.branch project) with
    | Some excluded_files =>
        match exclude_file re_search (parse_file_name (Project.name project))
                           excluded_files with
        | inl e => run = (Raised e, tr)
        | inr _ => run.1 = Ok tt
        end
    | None => run.1 = Ok tt
    end.
Proof.
  split; [apply list_snyk_vulnerabilities_nil|].
  intros fuel project exclude_files jira_epic_id tr Hnil run. subst run.
  unfold process_projects. rewrite Hnil. simpl.
  unfold mbind, M_bind, bind.
  destruct (exclude_files !! _) as [[|p ps]|]; [done|..|done].
  simpl truthy. cbv iota.
  destruct (exclude_file re_search _ (p :: ps)) as [e|[]]; simpl.
  - done.
  - split; [|done]. by apply filter_is_tracker_call_app.
  - done.
Qed.

End RunFacts.

(** A dry run over three findings. *)
Lemma create_jira_issues_dry_run_witness :
  create_jira_issues (fun s => s) Sample.str_list Sample.date_after
    (Sample.jira_client true [])
    [Sample.finding "p:a"; Sample.finding "p:b"; Sample.finding "p:c"]
    "PROJ" "pid" "slug" "EPIC" []
  = (Ok tt, [print "dry run. No issues created. (3 issues would be created)"]).
Proof.
  refine (proj1 (create_jira_issues_dry_run (fun s => s) Sample.str_list
                   Sample.date_after (Sample.jira_client true [])
                   [Sample.finding "p:a"; Sample.finding "p:b"; Sample.finding "p:c"]
                   "PROJ" "pid" "slug" "EPIC" [] _)).
  reflexivity.
Defined.

(** C7 fails as stated: on the empty list the builder returns a query text,
    and that text ends in an [AND] without a right operand. *)
Lemma list_snyk_vulnerabilities_empty_query :
  let r := list_snyk_vulnerabilities (score:=string) [] "main" "org/repo"
             "Dockerfile" (Sample.jira_client true []) in
  r = ([], "project=PROJ AND)") ∧ PyStr.endswith r.2 " AND)" = true.
Proof. vm_compute. done. Qed.

(** A project without findings, on a live client: with a pattern that
    matches, and with a pattern that does not compile. *)
Lemma empty_findings_no_query_witness :
  (let run := process_projects (fun s => s) Sample.str_list Sample.date_after
                Sample.literal_search 3 (Sample.jira_client false [])
                (Sample.project []) {[ "org/repo" := ["Dockerfile"] ]} "EPIC" [] in
   run.1 = Ok tt ∧ filter is_tracker_call run.2 = []) ∧
  process_projects (fun s => s) Sample.str_list Sample.date_after
    Sample.literal_search 3 (Sample.jira_client false [])
    (Sample.project []) {[ "org/repo" := ["["] ]} "EPIC" []
  = (Raised ReError, []).
Proof.
  split.
  - destruct (proj2 (empty_findings_no_query (fun s => s) Sample.str_list
                       Sample.date_after Sample.literal_search
                       (Sample.jira_client false []) "main" "org/repo" "Dockerfile")
                    3 (Sample.project []) {[ "org/repo" := ["Dockerfile"] ]}
                    "EPIC" [] eq_refl) as [Hcalls Hresult].
    split; [exact Hresult|exact Hcalls].
  - exact (proj2 (proj2 (empty_findings_no_query (fun s => s) Sample.str_list
                           Sample.date_after Sample.literal_search
                           (Sample.jira_client false []) "main" "org/repo"
                           "Dockerfile")
                        3 (Sample.project []) {[ "org/repo" := ["["] ]}
                        "EPIC" [] eq_refl)).
Defined.

(** C3: the code at a failing input.  The exclusion list of [org/repo]
    matches the file [Dockerfile], and [process_projects] logs that it skips
    the file; it then queries the tracker for the file's finding and creates
    an issue for it (the run ends in the [TypeError] of the last log line of
    [create_jira_issues], after the issue is created and linked). *)
Theorem process_projects_excluded_file_still_processed :
  let jira_client := Sample.jira_client false [] in
  let finding :=
    vulnerability_obj "main" "org/repo" "Dockerfile" jira_client
                      (Sample.snyk_issue "SNYK-1" "high") in
  parse_file_name "org/repo(main):Dockerfile" = "Dockerfile" ∧
  exclude_file Sample.literal_search "Dockerfile" ["Dockerfile"] = inr true ∧
  process_projects (fun s => s) Sample.str_list Sample.date_after
    Sample.literal_search 3 jira_client
    (Sample.project [Sample.snyk_issue "SNYK-1" "high"])
    {[ "org/repo" := ["Dockerfile"] ]} "EPIC" []
  = (Raised TypeError,
     [ logging_info
         "skipping file Dockerfile, because of the record in exclude_file.json";
       logging_info
         "looking for vulnerabilities in: org/repo, file: Dockerfile, branch: main";
       search_issues
         (labels_query "PROJ" ["p:org/repo:Dockerfile:main:SNYK-1"]) 0 50;
       create_issues
         [jira_issue (fun s => s) Sample.str_list Sample.date_after
                     "PROJ" "pid" "slug" finding];
       add_issues_to_epic "EPIC" ["status"; "error"; "issue"; "input_fields"];
       logging_info "Created JIRA issue key: PROJ-1" ]).
Proof. vm_compute. done. Qed.

(** C4: the code at a failing input.  Findings of severity [low] and
    [medium], which are not in [VULNERABILITY_SEVERITIES], come out of
    [list_snyk_vulnerabilities] with the others, are sent to the tracker in
    the query and are counted for creation. *)
Theorem list_snyk_vulnerabilities_keeps_every_severity :
  let jira_client := Sample.jira_client true [] in
  let issues := [Sample.snyk_issue "SNYK-1" "low";
                 Sample.snyk_issue "SNYK-2" "medium";
                 Sample.snyk_issue "SNYK-3" "high"] in
  ("low" ∉ VULNERABILITY_SEVERITIES) ∧ ("medium" ∉ VULNERABILITY_SEVERITIES) ∧
  map get_severity
      (list_snyk_vulnerabilities issues "main" "org/repo" "Dockerfile"
                                 jira_client).1
  = ["low"; "medium"; "high"] ∧
  (process_projects (fun s => s) Sample.str_list Sample.date_after
     Sample.literal_search 3 jira_client (Sample.project issues) ∅ "EPIC" []).2
  = [ logging_info
        "looking for vulnerabilities in: org/repo, file: Dockerfile, branch: main";
      search_issues
        (labels_query "PROJ" ["p:org/repo:Dockerfile:main:SNYK-1";
                              "p:org/repo:Dockerfile:main:SNYK-2";
                              "p:org/repo:Dockerfile:main:SNYK-3"]) 0 50;
      print "dry run. No issues created. (3 issues would be created)" ].
Proof.
  split; [|split]; [unfold VULNERABILITY_SEVERITIES; eval_decide..|].
  vm_compute. done.
Qed.

(** C5: the code at a failing input.  The tracker holds one hundred issues,
    two full pages, one for each of the project's hundred findings, so that
    reconciling against both pages leaves nothing to create.  The run asks
    for the page at offset 0 alone, never for offset 50, and reports the
    fifty findings tracked on the second page as issues to create. *)
Theorem process_vulnerabilities_reads_one_page :
  let stored := Sample.page 0 ++ Sample.page 50 in
  let jira_client := Sample.jira_client true stored in
  let issues := map (fun n => Sample.snyk_issue (PyStr.of_nat n) "high") (seq 0 100) in
  let r := list_snyk_vulnerabilities issues "main" "org/repo" "Dockerfile"
                                     jira_client in
  length (Sample.page 0) = 50 ∧ length (Sample.page 50) = 50 ∧
  on_search_issues (JiraClient.client jira_client) r.2 100 50 = inr [] ∧
  compare_jira_snyk r.1 stored "p:" = [] ∧
  process_vulnerabilities (fun s => s) Sample.str_list Sample.date_after 3
    jira_client r.1 r.2 "pid" "slug" "EPIC" []
  = (Ok tt,
     [ search_issues r.2 0 50;
       print "dry run. No issues created. (50 issues would be created)" ]).
Proof. vm_compute. done. Qed.

(** * Further properties of the script *)

(** ** Name parsing *)

Lemma contains_app (c : ascii) (s t : string) :
  PyStr.contains c (s +:+ t) = PyStr.contains c s || PyStr.contains c t.
Proof.
  induction s as [|a s IH]; [done|].
  rewrite string_app_cons. simpl. by rewrite IH, orb_assoc.
Qed.

Lemma partition_no_sep (c : ascii) (s : string) :
  PyStr.contains c s = false →
  PyStr.partition c s = (s, EmptyString, EmptyString).
Proof.
  induction s as [|a s IH]; [done|]. simpl.
  intros [Ha Hs]%orb_false_iff. by rewrite Ha, (IH Hs).
Qed.

Lemma partition_app_sep (c : ascii) (before after : string) :
  PyStr.contains c before = false →
  PyStr.partition c (before +:+ String c after)
  = (before, String c EmptyString, after).
Proof.
  induction before as [|a s IH].
  - intros _. rewrite string_app_nil_l. simpl. by rewrite Ascii.eqb_refl.
  - rewrite string_app_cons. simpl.
    intros [Ha Hs]%orb_false_iff. by rewrite Ha, (IH Hs).
Qed.

Lemma partition_before_no_sep (c : ascii) (s : string) :
  PyStr.contains c (PyStr.partition c s).1.1 = false.
Proof.
  induction s as [|a s IH]; [done|]. simpl.
  destruct (Ascii.eqb a c) eqn:Ha; [done|].
  destruct (PyStr.partition c s) as [[before sep] after]. simpl in *.
  by rewrite Ha, IH.
Qed.

Lemma partition_reassemble (c : ascii) (s : string) :
  (PyStr.partition c s).1.1 +:+ (PyStr.partition c s).1.2 +:+
  (PyStr.partition c s).2 = s.
Proof.
  induction s as [|a s IH]; [done|]. simpl.
  destruct (Ascii.eqb a c) eqn:Ha.
  - apply Ascii.eqb_eq in Ha as ->. done.
  - destruct (PyStr.partition c s) as [[before sep] after]. simpl in *.
    by rewrite string_app_cons, IH.
Qed.

Lemma contains_substring (c : ascii) (s : string) (n m : nat) :
  PyStr.contains c s = false →
  PyStr.contains c (String.substring n m s) = false.
Proof.
  revert n m. induction s as [|a s IH]; intros n m.
  - by destruct n, m.
  - simpl. intros [Ha Hs]%orb_false_iff. destruct n as [|n].
    + destruct m as [|m]; [done|]. simpl. by rewrite Ha, IH.
    + by apply IH.
Qed.

Lemma substring_app_r (s t : string) :
  String.substring (String.length s) (String.length t) (s +:+ t) = t.
Proof.
  induction s as [|a s IH].
  - rewrite string_app_nil_l. simpl.
    rewrite <- (string_app_nil_r t) at 2. apply substring_app_l.
  - rewrite string_app_cons. simpl. apply IH.
Qed.

Lemma endswith_app (s t : string) : PyStr.endswith (s +:+ t) t = true.
Proof.
  unfold PyStr.endswith. rewrite string_length_app.
  replace (String.length s + String.length t - String.length t)
    with (String.length s) by lia.
  rewrite substring_app_r, String.eqb_refl, andb_true_r.
  apply Nat.leb_le. lia.
Qed.

Lemma removesuffix_app (s t : string) :
  t ≠ EmptyString → PyStr.removesuffix (s +:+ t) t = s.
Proof.
  intros Ht. unfold PyStr.removesuffix.
  apply String.eqb_neq in Ht. rewrite Ht, endswith_app. simpl.
  apply drop_last_app.
Qed.

Lemma removesuffix_no_sep (c : ascii) (s t : string) :
  PyStr.contains c s = false →
  PyStr.contains c (PyStr.removesuffix s t) = false.
Proof.
  intros Hs. unfold PyStr.removesuffix, PyStr.drop_last.
  destruct (_ && _); [|done]. by apply contains_substring.
Qed.

(** X1. Whatever the raw project name and branch, the artifact name that
    [parse_project_name] returns holds no colon; so the first component of
    every tracking identity built from it is free of the delimiter. *)
Theorem parse_project_name_no_colon (project_name branch_name : string) :
  PyStr.contains ":" (parse_project_name project_name branch_name) = false.
Proof.
  unfold parse_project_name.
  apply removesuffix_no_sep, partition_before_no_sep.
Qed.

(** X2. Round trip of the raw project name.  For an artifact name and a
    branch without colon, the name [<artifact>(<branch>):<file path>] parses
    back to the artifact name and to the file path, which may itself hold
    colons. *)
Theorem parse_names_round_trip (artifact branch_name file_path : string) :
  PyStr.contains ":" artifact = false →
  PyStr.contains ":" branch_name = false →
  let raw := (artifact +:+ "(" +:+ branch_name +:+ ")") +:+ ":" +:+ file_path in
  parse_project_name raw branch_name = artifact ∧ parse_file_name raw = file_path.
Proof.
  intros Ha Hb raw. subst raw.
  assert (PyStr.contains ":" (artifact +:+ "(" +:+ branch_name +:+ ")") = false)
    as Hbefore.
  { rewrite !contains_app, Ha, Hb. done. }
  unfold parse_project_name, parse_file_name.
  change (":" +:+ file_path) with (String ":" file_path).
  rewrite (partition_app_sep _ _ _ Hbefore). simpl. split; [|done].
  apply removesuffix_app. discriminate.
Qed.

(** X3. A raw project name without colon has the empty file path, and a
    raw name always splits at its first colon: artifact part, colon and file
    path give the name back. *)
Theorem parse_file_name_split (project_name : string) :
  (PyStr.contains ":" project_name = false →
   parse_file_name project_name = EmptyString ∧
   (PyStr.partition ":" project_name).1.1 = project_name) ∧
  (PyStr.contains ":" project_name = true →
   (PyStr.partition ":" project_name).1.1 +:+ ":" +:+
   parse_file_name project_name = project_name).
Proof.
  unfold parse_file_name. split.
  - intros H. by rewrite (partition_no_sep _ _ H).
  - intros H.
    pose proof (partition_reassemble ":" project_name) as Hre.
    destruct (PyStr.partition ":" project_name) as [[before sep] after] eqn:Hp.
    simpl in *.
    assert (sep = ":") as ->; [|done].
    clear Hre. revert before sep after Hp.
    induction project_name as [|a s IH]; intros before sep after Hp; [done|].
    simpl in Hp, H. destruct (Ascii.eqb a ":") eqn:Ha.
    + by injection Hp as <- <- <-.
    + simpl in H.
      destruct (PyStr.partition ":" s) as [[b' s'] a'] eqn:Hp'.
      injection Hp as <- <- <-. by eapply IH.
Qed.

(** The raw name [myorg/repo(main):path/to/Dockerfile] on branch [main]. *)
Lemma parse_names_round_trip_witness :
  parse_project_name "myorg/repo(main):path/to/Dockerfile" "main" = "myorg/repo" ∧
  parse_file_name "myorg/repo(main):path/to/Dockerfile" = "path/to/Dockerfile".
Proof.
  apply (parse_names_round_trip "myorg/repo" "main" "path/to/Dockerfile");
    reflexivity.
Defined.

(** A name without colon, and a name with two. *)
Lemma parse_file_name_split_witness :
  parse_file_name "myorg/repo(main)" = EmptyString ∧
  (PyStr.partition ":" "a:b:c").1.1 +:+ ":" +:+ parse_file_name "a:b:c" = "a:b:c".
Proof.
  split.
  - apply (proj1 (parse_file_name_split "myorg/repo(main)")). reflexivity.
  - apply (proj2 (parse_file_name_split "a:b:c")). reflexivity.
Defined.

(** ** More on the reconciler *)

Section ReconcilerMore.
Context {score : Type}.
Implicit Types (v : VulnerabilityData score) (issue : JiraIssue).
Implicit Types (vulnerabilities : list (VulnerabilityData score)).
Implicit Types (jira_issues : list JiraIssue) (prefix label : string).

Lemma tracked_label_app jira_issues (more : list JiraIssue) prefix label :
  tracked_label (jira_issues ++ more) prefix label ↔
  tracked_label jira_issues prefix label ∨ tracked_label more prefix label.
Proof.
  unfold tracked_label. setoid_rewrite elem_of_app. split.
  - intros (issue & [?|?] & ? & ?); [left|right]; eauto.
  - intros [(issue & ? & ? & ?)|(issue & ? & ? & ?)]; eauto 6.
Qed.

Lemma compare_jira_snyk_as_filter vulnerabilities jira_issues prefix :
  compare_jira_snyk vulnerabilities jira_issues prefix
  = filter (fun v => ¬ get_jira_snyk_id v ∈ jira_issue_labels jira_issues prefix)
           vulnerabilities.
Proof. reflexivity. Qed.

Lemma filter_sublist_impl {A} (P Q : A → Prop)
    `{!∀ x, Decision (P x)} `{!∀ x, Decision (Q x)} (l : list A) :
  (∀ x, Q x → P x) → filter Q l `sublist_of` filter P l.
Proof.
  intros Himpl. induction l as [|x l IH]; [done|].
  rewrite !filter_cons. destruct (decide (Q x)) as [HQ|HQ].
  - rewrite decide_True by auto. by apply sublist_skip.
  - destruct (decide (P x)); [by apply sublist_cons|done].
Qed.

(** X4. Labels that do not start with the label prefix are ignored: when no
    label of any tracked issue starts with the prefix (an empty tracker, or
    issues that carry only other labels), every finding is returned. *)
Theorem compare_jira_snyk_foreign_labels vulnerabilities jira_issues prefix :
  (∀ issue label, issue ∈ jira_issues → label ∈ labels issue →
                  PyStr.startswith label prefix = false) →
  compare_jira_snyk vulnerabilities jira_issues prefix = vulnerabilities.
Proof.
  intros Hforeign. apply compare_jira_snyk_none_tracked.
  intros v _ (issue & Hin & Hl & Hp).
  rewrite (Hforeign issue _ Hin Hl) in Hp. discriminate.
Qed.

(** X5. Reconciling against two pages of tracked issues at once is
    reconciling against the first page and then reconciling what is left
    against the second. *)
Theorem compare_jira_snyk_pages vulnerabilities
    (page1 page2 : list JiraIssue) prefix :
  compare_jira_snyk vulnerabilities (page1 ++ page2) prefix
  = compare_jira_snyk (compare_jira_snyk vulnerabilities page1 prefix) page2 prefix.
Proof.
  rewrite !compare_jira_snyk_as_filter, list_filter_filter.
  apply list_filter_iff. intros v.
  rewrite !elem_of_jira_issue_labels, tracked_label_app. tauto.
Qed.

(** X6. The result does not depend on the order in which the tracker
    returns the issues. *)
Theorem compare_jira_snyk_issue_order vulnerabilities
    (jira_issues jira_issues' : list JiraIssue) prefix :
  jira_issues ≡ₚ jira_issues' →
  compare_jira_snyk vulnerabilities jira_issues prefix
  = compare_jira_snyk vulnerabilities jira_issues' prefix.
Proof.
  intros Hperm. rewrite !compare_jira_snyk_as_filter.
  apply list_filter_iff. intros v.
  rewrite !elem_of_jira_issue_labels. unfold tracked_label.
  by setoid_rewrite Hperm.
Qed.

(** X7. Tracked issues only ever remove findings: with more issues in the
    tracker, the findings to create are a subsequence of those found with
    fewer. *)
Theorem compare_jira_snyk_more_issues vulnerabilities
    jira_issues (more : list JiraIssue) prefix :
  compare_jira_snyk vulnerabilities (jira_issues ++ more) prefix
  `sublist_of` compare_jira_snyk vulnerabilities jira_issues prefix.
Proof.
  rewrite !compare_jira_snyk_as_filter.
  apply filter_sublist_impl. intros v.
  rewrite !elem_of_jira_issue_labels, tracked_label_app. tauto.
Qed.

(** X8. A finding whose tracking identity does not start with the label
    prefix is always returned, whatever labels the tracked issues carry: an
    issue labelled under another prefix does not count as tracking it. *)
Theorem compare_jira_snyk_keeps_unprefixed vulnerabilities jira_issues prefix v :
  v ∈ vulnerabilities →
  PyStr.startswith (get_jira_snyk_id v) prefix = false →
  v ∈ compare_jira_snyk vulnerabilities jira_issues prefix.
Proof.
  intros Hin Hp. apply elem_of_compare_jira_snyk. split; [done|].
  intros (issue & _ & _ & Hp'). congruence.
Qed.

End ReconcilerMore.

Lemma compare_jira_snyk_foreign_labels_witness :
  compare_jira_snyk [Sample.finding "p:a"; Sample.finding "p:b"]
                    [ {| labels := ["triage"; "q:a"] |}; {| labels := [] |} ] "p:"
  = [Sample.finding "p:a"; Sample.finding "p:b"].
Proof.
  apply compare_jira_snyk_foreign_labels.
  intros issue label Hissue Hlabel.
  repeat (apply elem_of_cons in Hissue as [->|Hissue]);
    [..|by apply elem_of_nil in Hissue]; simpl in Hlabel;
    repeat (apply elem_of_cons in Hlabel as [->|Hlabel]);
    try (by apply elem_of_nil in Hlabel); reflexivity.
Defined.

Lemma compare_jira_snyk_issue_order_witness :
  compare_jira_snyk [Sample.finding "p:a"; Sample.finding "p:b"]
                    [ {| labels := ["p:a"] |}; {| labels := ["x"] |} ] "p:"
  = compare_jira_snyk [Sample.finding "p:a"; Sample.finding "p:b"]
                      [ {| labels := ["x"] |}; {| labels := ["p:a"] |} ] "p:".
Proof. apply compare_jira_snyk_issue_order. apply Permutation_swap. Defined.

Lemma compare_jira_snyk_keeps_unprefixed_witness :
  Sample.finding "old:a"
  ∈ compare_jira_snyk [Sample.finding "old:a"] [ {| labels := ["old:a"] |} ] "p:".
Proof.
  apply compare_jira_snyk_keeps_unprefixed; [|reflexivity]. apply list_elem_of_here.
Defined.

(** ** Local computations *)

Section LocalFacts.

Lemma local_ret {A} (a : A) : local (mret a : M A).
Proof. intros tr. unfold mret, M_ret, ret. simpl. by rewrite app_nil_r. Qed.

Lemma local_raise {A} (e : exn) : local (raise e : M A).
Proof. intros tr. unfold raise. simpl. by rewrite app_nil_r. Qed.

Lemma local_out_of_fuel {A} : local (out_of_fuel : M A).
Proof. intros tr. unfold out_of_fuel. simpl. by rewrite app_nil_r. Qed.

Lemma local_emit (e : event) : local (emit e).
Proof. intros tr. done. Qed.

Lemma local_call {A} (e : event) (answer : exn + A) : local (call e answer).
Proof. intros tr. unfold call. by destruct answer. Qed.

Lemma local_bind {A B} (m : M A) (k : A → M B) :
  local m → (∀ a, local (k a)) → local (m ≫= k).
Proof.
  intros Hm Hk tr. unfold mbind, M_bind, bind.
  rewrite (Hm tr). destruct (m []) as [[a|e|] out]; simpl.
  - rewrite (Hk a (tr ++ out)), (Hk a out). simpl. by rewrite app_assoc.
  - done.
  - done.
Qed.

Lemma local_try {A} (body handler : M A) :
  local body → local handler → local (try_except_SystemError body handler).
Proof.
  intros Hb Hh tr. unfold try_except_SystemError.
  rewrite (Hb tr). destruct (body []) as [[a|[]|] out]; simpl; try done.
  rewrite (Hh (tr ++ out)), (Hh out). simpl. by rewrite app_assoc.
Qed.

Lemma local_for_each {A} (l : list A) (body : A → M unit) :
  (∀ x, local (body x)) → local (for_each l body).
Proof.
  intros Hbody. induction l as [|x l IH]; simpl.
  - apply (local_ret tt).
  - apply local_bind; auto.
Qed.

Lemma local_dict_get (d : list (string * string)) (key : string) :
  local (dict_get d key).
Proof.
  induction d as [|[k v] d IH]; simpl.
  - apply local_raise.
  - destruct (String.eqb k key); [apply (local_ret v)|apply IH].
Qed.

Lemma local_if {A} (b : bool) (m1 m2 : M A) :
  local m1 → local m2 → local (if b then m1 else m2).
Proof. by destruct b. Qed.

(** What a local computation records is added after the trace it starts
    from. *)
Lemma local_trace {A} (m : M A) (tr : list event) :
  local m → (m tr).2 = tr ++ (m []).2.
Proof. intros H. by rewrite (H tr). Qed.

Lemma local_result {A} (m : M A) (tr : list event) :
  local m → (m tr).1 = (m []).1.
Proof. intros H. by rewrite (H tr). Qed.

End LocalFacts.

Section RunLocal.
Context {score : Type}.
Variable str_score : score -> string.
Variable str_list : list string -> string.
Variable date_after : nat -> string.
Variable re_search : string -> string -> option bool.

Lemma local_create_jira_issues (self : JiraClient.t)
    (vulnerabilities_to_create : list (VulnerabilityData score))
    (jira_project_id snyk_project_id snyk_org_slug jira_epic_id : string) :
  local (create_jira_issues str_score str_list date_after self
           vulnerabilities_to_create jira_project_id snyk_project_id
           snyk_org_slug jira_epic_id).
Proof.
  unfold create_jira_issues. apply local_if; [|apply local_emit].
  apply local_try; [|apply local_emit].
  apply local_bind; [apply local_call|]. intros created.
  apply local_bind; [apply local_call|]. intros _.
  apply local_bind; [|intros _; apply local_raise].
  apply local_for_each. intros issue.
  apply local_bind; [apply local_dict_get|]. intros key. apply local_emit.
Qed.

Lemma local_list_existing_jira_issues (self : JiraClient.t)
    (jira_query : string) (start_at max_results : Z) :
  local (list_existing_jira_issues self jira_query start_at max_results).
Proof.
  unfold list_existing_jira_issues.
  apply local_bind; [apply local_call|]. intros issues. apply local_ret.
Qed.

Lemma local_process_vulnerabilities_loop (fuel : nat) (jira_client : JiraClient.t)
    (vulnerabilities_to_compare_list : list (VulnerabilityData score))
    (jira_query project_id snyk_org_slug jira_epic_id : string)
    (load_more : bool) (start_at max_results : Z) :
  local (process_vulnerabilities_loop str_score str_list date_after fuel
           jira_client vulnerabilities_to_compare_list jira_query project_id
           snyk_org_slug jira_epic_id load_more start_at max_results).
Proof.
  revert load_more start_at.
  induction fuel as [|fuel IH]; intros load_more start_at; simpl.
  - destruct load_more; [apply local_out_of_fuel|apply (local_ret tt)].
  - destruct load_more; [|apply (local_ret tt)].
    apply local_bind; [apply local_list_existing_jira_issues|].
    intros [jira_issues more].
    apply local_bind; [|intros start_at'; apply IH].
    apply local_if; [|apply local_ret].
    apply local_bind; [apply local_create_jira_issues|].
    intros _. apply local_ret.
Qed.

Lemma local_process_vulnerabilities (fuel : nat) (jira_client : JiraClient.t)
    (vulnerabilities_to_compare_list : list (VulnerabilityData score))
    (jira_query project_id snyk_org_slug jira_epic_id : string) :
  local (process_vulnerabilities str_score str_list date_after fuel jira_client
           vulnerabilities_to_compare_list jira_query project_id snyk_org_slug
           jira_epic_id).
Proof. apply local_process_vulnerabilities_loop. Qed.

End RunLocal.

(** ** Silent and finishing computations *)

Section SilentFacts.
Variable P : event -> bool.

Lemma silent_ret {A} (a : A) : silent P (mret a : M A).
Proof. intros tr. done. Qed.

Lemma silent_raise {A} (e : exn) : silent P (raise e : M A).
Proof. intros tr. done. Qed.

Lemma silent_out_of_fuel {A} : silent P (out_of_fuel : M A).
Proof. intros tr. done. Qed.

Lemma silent_emit (e : event) : P e = false → silent P (emit e).
Proof.
  intros He tr. unfold emit. simpl. rewrite filter_app, filter_cons_False.
  - by rewrite filter_nil, app_nil_r.
  - rewrite He. intros H. exact H.
Qed.

Lemma silent_call {A} (e : event) (answer : exn + A) :
  P e = false → silent P (call e answer).
Proof.
  intros He tr. pose proof (silent_emit e He tr) as H.
  unfold call, emit in *. by destruct answer.
Qed.

Lemma silent_bind {A B} (m : M A) (k : A → M B) :
  silent P m → (∀ a, silent P (k a)) → silent P (m ≫= k).
Proof.
  intros Hm Hk tr. unfold mbind, M_bind, bind.
  specialize (Hm tr). destruct (m tr) as [[a|e|] tr']; simpl in *; [|done..].
  by rewrite (Hk a tr').
Qed.

Lemma silent_try {A} (body handler : M A) :
  silent P body → silent P handler →
  silent P (try_except_SystemError body handler).
Proof.
  intros Hb Hh tr. unfold try_except_SystemError.
  specialize (Hb tr). destruct (body tr) as [[a|[]|] tr']; simpl in *; try done.
  by rewrite (Hh tr').
Qed.

Lemma silent_for_each {A} (l : list A) (body : A → M unit) :
  (∀ x, silent P (body x)) → silent P (for_each l body).
Proof.
  intros Hbody. induction l as [|x l IH]; simpl.
  - apply (silent_ret tt).
  - apply silent_bind; auto.
Qed.

Lemma silent_dict_get (d : list (string * string)) (key : string) :
  silent P (dict_get d key).
Proof.
  induction d as [|[k v] d IH]; simpl.
  - apply silent_raise.
  - destruct (String.eqb k key); [apply (silent_ret v)|apply IH].
Qed.

Lemma silent_if {A} (b : bool) (m1 m2 : M A) :
  silent P m1 → silent P m2 → silent P (if b then m1 else m2).
Proof. by destruct b. Qed.

End SilentFacts.

Section FinishFacts.

Lemma finishes_ret {A} (a : A) : finishes (mret a : M A).
Proof. intros tr. done. Qed.

Lemma finishes_raise {A} (e : exn) : finishes (raise e : M A).
Proof. intros tr. done. Qed.

Lemma finishes_emit (e : event) : finishes (emit e).
Proof. intros tr. done. Qed.

Lemma finishes_call {A} (e : event) (answer : exn + A) : finishes (call e answer).
Proof. intros tr. unfold call. by destruct answer. Qed.

Lemma finishes_bind {A B} (m : M A) (k : A → M B) :
  finishes m → (∀ a, finishes (k a)) → finishes (m ≫= k).
Proof.
  intros Hm Hk tr. unfold mbind, M_bind, bind.
  specialize (Hm tr). destruct (m tr) as [[a|e|] tr']; simpl in *; [|done..].
  apply Hk.
Qed.

Lemma finishes_try {A} (body handler : M A) :
  finishes body → finishes handler →
  finishes (try_except_SystemError body handler).
Proof.
  intros Hb Hh tr. unfold try_except_SystemError.
  specialize (Hb tr).
  destruct (body tr) as [[a|[]|] tr']; simpl in *; solve [done|apply Hh].
Qed.

Lemma finishes_for_each {A} (l : list A) (body : A → M unit) :
  (∀ x, finishes (body x)) → finishes (for_each l body).
Proof.
  intros Hbody. induction l as [|x l IH]; simpl.
  - apply (finishes_ret tt).
  - apply finishes_bind; auto.
Qed.

Lemma finishes_dict_get (d : list (string * string)) (key : string) :
  finishes (dict_get d key).
Proof.
  induction d as [|[k v] d IH]; simpl.
  - apply finishes_raise.
  - destruct (String.eqb k key); [apply (finishes_ret v)|apply IH].
Qed.

Lemma finishes_if {A} (b : bool) (m1 m2 : M A) :
  finishes m1 → finishes m2 → finishes (if b then m1 else m2).
Proof. by destruct b. Qed.

End FinishFacts.

(** ** Issue creation on the live path, paging and orchestration *)

Section RunMore.
Context {score : Type}.
Variable str_score : score -> string.
Variable str_list : list string -> string.
Variable date_after : nat -> string.
Variable re_search : string -> string -> option bool.

Lemma silent_create_jira_issues (P : event → bool) (self : JiraClient.t)
    (vulnerabilities_to_create : list (VulnerabilityData score))
    (jira_project_id snyk_project_id snyk_org_slug jira_epic_id : string) :
  (∀ msg, P (logging_info msg) = false) →
  (∀ msg, P (logging_error msg) = false) →
  (∀ msg, P (print msg) = false) →
  (JiraClient.is_dry_run self = false →
   P (create_issues
        (map (jira_issue str_score str_list date_after jira_project_id
                         snyk_project_id snyk_org_slug)
             vulnerabilities_to_create)) = false ∧
   (∀ epic keys, P (add_issues_to_epic epic keys) = false)) →
  silent P (create_jira_issues str_score str_list date_after self
              vulnerabilities_to_create jira_project_id snyk_project_id
              snyk_org_slug jira_epic_id).
Proof.
  intros Hinfo Herror Hprint Hlive. unfold create_jira_issues.
  destruct (JiraClient.is_dry_run self); simpl; [by apply silent_emit|].
  destruct Hlive as [Hcreate Hadd]; [done|].
  apply silent_try; [|by apply silent_emit].
  apply silent_bind; [by apply silent_call|]. intros created.
  apply silent_bind; [by apply silent_call|]. intros _.
  apply silent_bind; [|intros _; apply silent_raise].
  apply silent_for_each. intros issue.
  apply silent_bind; [apply silent_dict_get|]. intros key. by apply silent_emit.
Qed.

Lemma finishes_create_jira_issues (self : JiraClient.t)
    (vulnerabilities_to_create : list (VulnerabilityData score))
    (jira_project_id snyk_project_id snyk_org_slug jira_epic_id : string) :
  finishes (create_jira_issues str_score str_list date_after self vulnerabilities_to_create jira_project_id
                   snyk_project_id snyk_org_slug jira_epic_id).
Proof.
  unfold create_jira_issues. apply finishes_if; [|apply finishes_emit].
  apply finishes_try; [|apply finishes_emit].
  apply finishes_bind; [apply finishes_call|]. intros created.
  apply finishes_bind; [apply finishes_call|]. intros _.
  apply finishes_bind; [|intros _; apply finishes_raise].
  apply finishes_for_each. intros issue.
  apply finishes_bind; [apply finishes_dict_get|]. intros key.
  apply finishes_emit.
Qed.

Lemma dict_get_lookup (d : list (string * string)) (key : string)
    (tr : list event) :
  dict_get d key tr
  = match dict_lookup d key with
    | Some value => (Ok value, tr)
    | None => (Raised KeyError, tr)
    end.
Proof.
  induction d as [|[k v] d IH]; simpl; [done|].
  by destruct (String.eqb k key).
Qed.

(** The log lines written for the created issues: one per entry up to the
    first entry without the key [issue], where the loop ends with
    [KeyError]. *)
Lemma for_each_created_log (created : list CreatedIssue) (tr : list event) :
  for_each created (fun issue =>
    key ← dict_get issue "issue";
    emit (logging_info ("Created JIRA issue key: " +:+ key))) tr
  = (if all_have_issue created then Ok tt else Raised KeyError,
     tr ++ map (fun key => logging_info ("Created JIRA issue key: " +:+ key))
               (issues_before_missing created)).
Proof.
  revert tr. induction created as [|issue created IH]; intros tr.
  - simpl. by rewrite app_nil_r.
  - cbn [for_each issues_before_missing all_have_issue forallb].
    unfold mbind at 1, M_bind, bind.
    unfold mbind at 1, M_bind, bind.
    rewrite dict_get_lookup.
    destruct (dict_lookup issue "issue") as [key|].
    + unfold emit at 1. rewrite IH.
      rewrite bool_decide_true by (by eexists). simpl.
      by rewrite <- app_assoc.
    + rewrite bool_decide_false by (by intros [? ?]). simpl.
      by rewrite app_nil_r.
Qed.

(** X9. On the live path a [SystemError] of the tracker is logged and
    swallowed: when the batch creation raises it nothing is linked, and when
    the link to the epic raises it the issues stay created and unlinked; in
    both cases [create_jira_issues] returns normally. *)
Theorem create_jira_issues_swallows_SystemError (self : JiraClient.t)
    (vulnerabilities_to_create : list (VulnerabilityData score))
    (jira_project_id snyk_project_id snyk_org_slug jira_epic_id : string)
    (tr : list event) :
  JiraClient.is_dry_run self = false →
  let batch := map (jira_issue str_score str_list date_after jira_project_id snyk_project_id snyk_org_slug)
                   vulnerabilities_to_create in
  let run := create_jira_issues str_score str_list date_after self vulnerabilities_to_create jira_project_id
                    snyk_project_id snyk_org_slug jira_epic_id tr in
  (on_create_issues (JiraClient.client self) batch = inl SystemError →
   run = (Ok tt, tr ++ [create_issues batch;
                        logging_error "failed to create jira issues"])) ∧
  (∀ created,
     on_create_issues (JiraClient.client self) batch = inr created →
     on_add_issues_to_epic (JiraClient.client self) jira_epic_id
                           (concat (map (map fst) created)) = inl SystemError →
     run = (Ok tt, tr ++ [create_issues batch;
                          add_issues_to_epic jira_epic_id
                                             (concat (map (map fst) created));
                          logging_error "failed to create jira issues"])).
Proof.
  intros Hlive batch run. subst run batch.
  unfold create_jira_issues. rewrite Hlive. simpl.
  unfold try_except_SystemError, mbind, M_bind, bind, call, emit. split.
  - intros ->. simpl. by rewrite <- app_assoc.
  - intros created -> ->. simpl. by rewrite <- !app_assoc.
Qed.

(** X10. On the live path any other exception of the batch creation is
    neither logged nor handled: it leaves [create_jira_issues] right after
    the creation call. *)
Theorem create_jira_issues_other_exception (self : JiraClient.t)
    (vulnerabilities_to_create : list (VulnerabilityData score))
    (jira_project_id snyk_project_id snyk_org_slug jira_epic_id : string)
    (tr : list event) (e : exn) :
  JiraClient.is_dry_run self = false →
  e ≠ SystemError →
  let batch := map (jira_issue str_score str_list date_after jira_project_id snyk_project_id snyk_org_slug)
                   vulnerabilities_to_create in
  on_create_issues (JiraClient.client self) batch = inl e →
  create_jira_issues str_score str_list date_after self vulnerabilities_to_create jira_project_id snyk_project_id
         snyk_org_slug jira_epic_id tr
  = (Raised e, tr ++ [create_issues batch]).
Proof.
  intros Hlive He batch Hcreate. subst batch.
  unfold create_jira_issues. rewrite Hlive. simpl.
  unfold try_except_SystemError, mbind, M_bind, bind, call.
  rewrite Hcreate. by destruct e.
Qed.

(** X11. On the live path, when the tracker creates the batch and links it,
    [create_jira_issues] does not return normally.  It writes one log line
    per created entry up to the first entry without the key [issue]; when
    every entry has the key it ends in the [TypeError] of its last log line,
    and otherwise in the [KeyError] of the entry without the key.  The keys
    linked to the epic are the dict keys of the created entries. *)
Theorem create_jira_issues_live_never_returns (self : JiraClient.t)
    (vulnerabilities_to_create : list (VulnerabilityData score))
    (jira_project_id snyk_project_id snyk_org_slug jira_epic_id : string)
    (tr : list event) (created : list CreatedIssue) :
  JiraClient.is_dry_run self = false →
  let batch := map (jira_issue str_score str_list date_after jira_project_id
                               snyk_project_id snyk_org_slug)
                   vulnerabilities_to_create in
  let issue_keys := concat (map (map fst) created) in
  on_create_issues (JiraClient.client self) batch = inr created →
  on_add_issues_to_epic (JiraClient.client self) jira_epic_id issue_keys = inr tt →
  create_jira_issues str_score str_list date_after self
    vulnerabilities_to_create jira_project_id snyk_project_id snyk_org_slug
    jira_epic_id tr
  = (Raised (if all_have_issue created then TypeError else KeyError),
     tr ++
     [create_issues batch; add_issues_to_epic jira_epic_id issue_keys] ++
     map (fun key => logging_info ("Created JIRA issue key: " +:+ key))
         (issues_before_missing created)).
Proof.
  intros Hlive batch issue_keys Hcreate Hadd.
  pose proof (for_each_created_log created
                ((tr ++ [create_issues batch]) ++
                 [add_issues_to_epic jira_epic_id issue_keys])) as Hlog.
  unfold create_jira_issues. rewrite Hlive. simpl.
  unfold try_except_SystemError, mbind, M_bind, bind, call in *.
  fold batch. rewrite Hcreate. fold issue_keys. rewrite Hadd.
  unfold CreatedIssue in *. rewrite Hlog.
  rewrite <- !app_assoc. by destruct (all_have_issue created).
Qed.

End RunMore.

Section Paging.
Context {score : Type}.
Variable str_score : score -> string.
Variable str_list : list string -> string.
Variable date_after : nat -> string.
Variable re_search : string -> string -> option bool.

Lemma filter_snoc_true (P : event → bool) (tr : list event) (e : event) :
  P e = true → filter P (tr ++ [e]) = filter P tr ++ [e].
Proof.
  intros He. rewrite filter_app, filter_cons_True, filter_nil; [done|].
  by rewrite He.
Qed.

Lemma filter_snoc_false (P : event → bool) (tr : list event) (e : event) :
  P e = false → filter P (tr ++ [e]) = filter P tr.
Proof.
  intros He. rewrite filter_app, filter_cons_False, filter_nil, app_nil_r; [done|].
  rewrite He. intros H. exact H.
Qed.

Lemma process_vulnerabilities_searches (fuel : nat) (jira_client : JiraClient.t)
    (vulnerabilities_to_compare_list : list (VulnerabilityData score))
    (jira_query project_id snyk_org_slug jira_epic_id : string) (tr : list event) :
  let run := process_vulnerabilities str_score str_list date_after (S fuel)
               jira_client vulnerabilities_to_compare_list jira_query project_id
               snyk_org_slug jira_epic_id tr in
  run.1 ≠ OutOfFuel ∧
  filter is_search run.2 = filter is_search tr ++ [search_issues jira_query 0 50].
Proof.
  intros run. subst run. rewrite process_vulnerabilities_one_iteration.
  destruct (on_search_issues _ _ _ _) as [e|jira_issues]; simpl.
  - split; [done|]. by apply filter_snoc_true.
  - destruct (truthy _).
    + split; [apply finishes_create_jira_issues|].
      rewrite (silent_create_jira_issues _ _ _ is_search); [|done..].
      by apply filter_snoc_true.
    + split; [done|]. by apply filter_snoc_true.
Qed.

(** X12. The paging loop ends after one turn whatever the tracker answers:
    with any positive fuel [process_vulnerabilities] does not run out of it,
    behaves as with fuel 1, and sends exactly one search, at offset 0 with
    page size 50. *)
Theorem process_vulnerabilities_one_search (fuel : nat) (jira_client : JiraClient.t)
    (vulnerabilities_to_compare_list : list (VulnerabilityData score))
    (jira_query project_id snyk_org_slug jira_epic_id : string) (tr : list event) :
  let run := process_vulnerabilities str_score str_list date_after (S fuel)
               jira_client vulnerabilities_to_compare_list jira_query project_id
               snyk_org_slug jira_epic_id tr in
  run = process_vulnerabilities str_score str_list date_after 1
          jira_client vulnerabilities_to_compare_list jira_query project_id
          snyk_org_slug jira_epic_id tr ∧
  run.1 ≠ OutOfFuel ∧
  filter is_search run.2 = filter is_search tr ++ [search_issues jira_query 0 50].
Proof.
  intros run. split; [|apply process_vulnerabilities_searches].
  subst run. by rewrite !process_vulnerabilities_one_iteration.
Qed.

(** X13. An exception of the search is not handled: it leaves
    [process_vulnerabilities] after the one search, and nothing is created. *)
Theorem process_vulnerabilities_search_fails (fuel : nat) (jira_client : JiraClient.t)
    (vulnerabilities_to_compare_list : list (VulnerabilityData score))
    (jira_query project_id snyk_org_slug jira_epic_id : string) (tr : list event)
    (e : exn) :
  on_search_issues (JiraClient.client jira_client) jira_query 0 50 = inl e →
  process_vulnerabilities str_score str_list date_after (S fuel) jira_client
    vulnerabilities_to_compare_list jira_query project_id snyk_org_slug
    jira_epic_id tr
  = (Raised e, tr ++ [search_issues jira_query 0 50]).
Proof. intros H. by rewrite process_vulnerabilities_one_iteration, H. Qed.

(** X14. When the page the tracker returns carries every finding's identity
    as a label under the prefix, [process_vulnerabilities] returns normally
    after the search and calls [create_jira_issues] not at all, on a live
    client as on a dry run. *)
Theorem process_vulnerabilities_all_tracked (fuel : nat) (jira_client : JiraClient.t)
    (vulnerabilities_to_compare_list : list (VulnerabilityData score))
    (jira_query project_id snyk_org_slug jira_epic_id : string) (tr : list event)
    (jira_issues : list JiraIssue) :
  on_search_issues (JiraClient.client jira_client) jira_query 0 50
  = inr jira_issues →
  (∀ v, v ∈ vulnerabilities_to_compare_list →
        tracked_label jira_issues (JiraClient.get_jira_label_prefix jira_client)
                      (get_jira_snyk_id v)) →
  process_vulnerabilities str_score str_list date_after (S fuel) jira_client
    vulnerabilities_to_compare_list jira_query project_id snyk_org_slug
    jira_epic_id tr
  = (Ok tt, tr ++ [search_issues jira_query 0 50]).
Proof.
  intros Hsearch Htracked.
  rewrite process_vulnerabilities_one_iteration, Hsearch. simpl.
  by rewrite (compare_jira_snyk_all_tracked _ _ _ Htracked).
Qed.

Lemma silent_process_vulnerabilities_loop (P : event → bool) (fuel : nat)
    (jira_client : JiraClient.t)
    (vulnerabilities_to_compare_list : list (VulnerabilityData score))
    (jira_query project_id snyk_org_slug jira_epic_id : string)
    (load_more : bool) (start_at max_results : Z) :
  (∀ q s m, P (search_issues q s m) = false) →
  (∀ msg, P (logging_info msg) = false) →
  (∀ msg, P (logging_error msg) = false) →
  (∀ msg, P (print msg) = false) →
  (JiraClient.is_dry_run jira_client = false →
   (∀ to_create jira_project_id snyk_project_id slug,
      (∀ v, v ∈ to_create → v ∈ vulnerabilities_to_compare_list) →
      P (create_issues
           (map (jira_issue str_score str_list date_after jira_project_id
                            snyk_project_id slug) to_create)) = false) ∧
   (∀ epic keys, P (add_issues_to_epic epic keys) = false)) →
  silent P (process_vulnerabilities_loop str_score str_list date_after fuel
              jira_client vulnerabilities_to_compare_list jira_query project_id
              snyk_org_slug jira_epic_id load_more start_at max_results).
Proof.
  intros Hsearch Hinfo Herror Hprint Hlive. revert load_more start_at.
  induction fuel as [|fuel IH]; intros load_more start_at; simpl.
  - destruct load_more; [apply silent_out_of_fuel|apply (silent_ret P tt)].
  - destruct load_more; [|apply (silent_ret P tt)].
    apply silent_bind.
    { unfold list_existing_jira_issues. apply silent_bind.
      - by apply silent_call.
      - intros issues. apply silent_ret. }
    intros [jira_issues more].
    apply silent_bind; [|intros start_at'; apply IH].
    apply silent_if; [|apply silent_ret].
    apply silent_bind; [|intros _; apply silent_ret].
    apply silent_create_jira_issues; [done..|].
    intros Hdry. destruct (Hlive Hdry) as [Hcreate Hadd]. split; [|done].
    apply Hcreate. intros v Hv. by apply elem_of_compare_jira_snyk in Hv as [? _].
Qed.

(** The exclusion test of [process_projects] records nothing. *)
Lemma silent_exclusion_test (P : event → bool) (file_name : string)
    (excluded_files : option (list string)) :
  silent P (match excluded_files with
            | Some excluded_files =>
                if truthy excluded_files then
                  match exclude_file re_search file_name excluded_files with
                  | inl e => raise e
                  | inr found => mret found
                  end
                else mret false
            | None => mret false
            end).
Proof.
  destruct excluded_files as [l|]; [|apply silent_ret].
  apply silent_if; [|apply silent_ret].
  destruct (exclude_file _ _ _); [apply silent_raise|apply silent_ret].
Qed.

Lemma local_exclusion_test (file_name : string)
    (excluded_files : option (list string)) :
  local (match excluded_files with
         | Some excluded_files =>
             if truthy excluded_files then
               match exclude_file re_search file_name excluded_files with
               | inl e => raise e
               | inr found => mret found
               end
             else mret false
         | None => mret false
         end).
Proof.
  destruct excluded_files as [l|]; [|apply local_ret].
  apply local_if; [|apply local_ret].
  destruct (exclude_file _ _ _); [apply local_raise|apply local_ret].
Qed.

Lemma silent_process_projects (P : event → bool) (fuel : nat)
    (jira_client : JiraClient.t) (project : Project.t score)
    (exclude_files : gmap string (list string)) (jira_epic_id : string) :
  (∀ q s m, P (search_issues q s m) = false) →
  (∀ msg, P (logging_info msg) = false) →
  (∀ msg, P (logging_error msg) = false) →
  (∀ msg, P (print msg) = false) →
  (JiraClient.is_dry_run jira_client = false →
   (∀ to_create jira_project_id snyk_project_id slug,
      (∀ v : VulnerabilityData score, v ∈ to_create →
         get_component_list v = JiraClient.get_component_list jira_client) →
      P (create_issues
           (map (jira_issue str_score str_list date_after jira_project_id
                            snyk_project_id slug) to_create)) = false) ∧
   (∀ epic keys, P (add_issues_to_epic epic keys) = false)) →
  silent P (process_projects str_score str_list date_after re_search fuel
              jira_client project exclude_files jira_epic_id).
Proof.
  intros Hsearch Hinfo Herror Hprint Hlive.
  unfold process_projects. apply silent_bind; [apply silent_exclusion_test|].
  intros excluded. apply silent_bind.
  { apply silent_if; [by apply silent_emit|apply silent_ret]. }
  intros _. apply silent_if; [|apply silent_ret].
  apply silent_bind; [by apply silent_emit|]. intros _.
  destruct (list_snyk_vulnerabilities _ _ _ _ _) as [vs q] eqn:Hlist.
  apply silent_if; [|apply silent_ret].
  apply silent_process_vulnerabilities_loop; [done..|].
  intros Hdry. destruct (Hlive Hdry) as [Hcreate Hadd]. split; [|done].
  intros to_create jp sp slug Hsub. apply Hcreate. intros v Hv.
  apply Hsub in Hv.
  assert (vs = (list_snyk_vulnerabilities (Project.issues project)
                  (Project.branch project)
                  (parse_project_name (Project.name project) (Project.branch project))
                  (parse_file_name (Project.name project)) jira_client).1) as ->.
  { by rewrite Hlist. }
  rewrite list_snyk_vulnerabilities_fst in Hv.
  by apply list_elem_of_fmap in Hv as (raw & -> & _).
Qed.

(** X15. A dry run changes nothing in the tracker: with the dry-run flag
    set, [process_projects] records no create call and no link-to-epic call,
    for every project, every exclusion mapping, every tracker and every
    fuel. *)
Theorem process_projects_dry_run_no_mutation (fuel : nat)
    (jira_client : JiraClient.t) (project : Project.t score)
    (exclude_files : gmap string (list string)) (jira_epic_id : string)
    (tr : list event) :
  JiraClient.is_dry_run jira_client = true →
  filter is_mutation
    (process_projects str_score str_list date_after re_search fuel jira_client
       project exclude_files jira_epic_id tr).2
  = filter is_mutation tr.
Proof.
  intros Hdry. apply silent_process_projects; try done.
  rewrite Hdry. discriminate.
Qed.

Lemma local_process_projects (fuel : nat)
    (jira_client : JiraClient.t) (project : Project.t score)
    (exclude_files : gmap string (list string)) (jira_epic_id : string) :
  local (process_projects str_score str_list date_after re_search fuel
           jira_client project exclude_files jira_epic_id).
Proof.
  unfold process_projects. apply local_bind; [apply local_exclusion_test|].
  intros excluded. apply local_bind.
  { apply local_if; [apply local_emit|apply local_ret]. }
  intros _. apply local_if; [|apply local_ret].
  apply local_bind; [apply local_emit|]. intros _.
  destruct (list_snyk_vulnerabilities _ _ _ _ _) as [vs q].
  apply local_if; [|apply local_ret].
  apply local_process_vulnerabilities.
Qed.

Lemma list_snyk_vulnerabilities_cons
    (vulnerability : SnykIssue score) (vulnerabilities : list (SnykIssue score))
    (project_branch project_name file_name : string) (jira_client : JiraClient.t) :
  list_snyk_vulnerabilities (vulnerability :: vulnerabilities) project_branch
                            project_name file_name jira_client
  = (map (vulnerability_obj project_branch project_name file_name jira_client)
         (vulnerability :: vulnerabilities),
     labels_query (JiraClient.get_project_id jira_client)
       (map (fun v => jira_snyk_id (JiraClient.get_jira_label_prefix jira_client)
                                   project_name file_name project_branch (id v))
            (vulnerability :: vulnerabilities))).
Proof.
  rewrite (surjective_pairing (list_snyk_vulnerabilities _ _ _ _ _)).
  rewrite list_snyk_vulnerabilities_fst, list_snyk_vulnerabilities_snd.
  f_equal. rewrite map_cons, clauses_cons, <- string_app_assoc.
  rewrite (drop_last_app _ "OR").
  unfold labels_query. by rewrite !string_app_assoc.
Qed.

(** X16. The exclusion mapping changes nothing but the start of the run.
    When the mapping has no patterns for the artifact, or none of them is
    found in the file name, [process_projects] behaves as with the empty
    mapping; when a pattern is found it first logs [skipping file ...] and
    then behaves as with the empty mapping; when a pattern that does not
    compile is reached first, the [re.error] leaves it before anything is
    recorded. *)
Theorem process_projects_exclusions_only_log (fuel : nat)
    (jira_client : JiraClient.t) (project : Project.t score)
    (exclude_files : gmap string (list string)) (jira_epic_id : string)
    (tr : list event) :
  let project_name :=
    parse_project_name (Project.name project) (Project.branch project) in
  let file_name := parse_file_name (Project.name project) in
  ∃ r out,
    process_projects str_score str_list date_after re_search fuel jira_client
      project ∅ jira_epic_id tr = (r, tr ++ out) ∧
    process_projects str_score str_list date_after re_search fuel jira_client
      project exclude_files jira_epic_id tr
    = match exclude_files !! project_name with
      | Some excluded_files =>
          match exclude_file re_search file_name excluded_files with
          | inl e => (Raised e, tr)
          | inr true =>
              (r, tr ++
                  logging_info ("skipping file " +:+ file_name +:+
                                ", because of the record in exclude_file.json")
                  :: out)
          | inr false => (r, tr ++ out)
          end
      | None => (r, tr ++ out)
      end.
Proof.
  intros project_name file_name.
  pose proof (local_process_projects fuel jira_client project ∅ jira_epic_id)
    as Hlocal.
  destruct (process_projects str_score str_list date_after re_search fuel
              jira_client project ∅ jira_epic_id []) as [r out] eqn:Hrun.
  assert (process_projects str_score str_list date_after re_search fuel
            jira_client project exclude_files jira_epic_id tr
          = match exclude_files !! project_name with
            | Some excluded_files =>
                match exclude_file re_search file_name excluded_files with
                | inl e => (Raised e, tr)
                | inr true =>
                    process_projects str_score str_list date_after re_search
                      fuel jira_client project ∅ jira_epic_id
                      (tr ++ [logging_info
                                ("skipping file " +:+ file_name +:+
                                 ", because of the record in exclude_file.json")])
                | inr false =>
                    process_projects str_score str_list date_after re_search
                      fuel jira_client project ∅ jira_epic_id tr
                end
            | None =>
                process_projects str_score str_list date_after re_search
                  fuel jira_client project ∅ jira_epic_id tr
            end) as Hcases.
  { unfold process_projects. rewrite lookup_empty.
    fold project_name file_name.
    destruct (exclude_files !! project_name) as [[|p ps]|]; [reflexivity| |reflexivity].
    simpl truthy. cbv iota.
    destruct (exclude_file re_search file_name (p :: ps)) as [e|[]]; reflexivity. }
  exists r, out. split; [by rewrite (Hlocal tr), Hrun|].
  rewrite Hcases.
  destruct (exclude_files !! project_name) as [l|];
    [|by rewrite (Hlocal tr), Hrun].
  destruct (exclude_file re_search file_name l) as [e|[]].
  - done.
  - rewrite (Hlocal (_ ++ _)), Hrun. simpl. by rewrite <- app_assoc.
  - by rewrite (Hlocal tr), Hrun.
Qed.

(** X17. For a project with findings and any positive fuel: when the
    exclusion test of the artifact returns, [process_projects] does not run
    out of fuel and sends exactly one search, the query over the identities
    of all the project's findings, built from the parsed artifact name and
    file path, at offset 0 with page size 50; when the test reaches a pattern
    that does not compile, the [re.error] leaves [process_projects] before
    any search. *)
Theorem process_projects_one_query (fuel : nat)
    (jira_client : JiraClient.t) (project : Project.t score)
    (exclude_files : gmap string (list string)) (jira_epic_id : string)
    (tr : list event) :
  Project.issues project ≠ [] →
  let project_name :=
    parse_project_name (Project.name project) (Project.branch project) in
  let file_name := parse_file_name (Project.name project) in
  let run := process_projects str_score str_list date_after re_search (S fuel)
               jira_client project exclude_files jira_epic_id tr in
  let identities :=
    map (fun v => jira_snyk_id
                    (JiraClient.get_jira_label_prefix jira_client)
                    project_name file_name (Project.branch project) (id v))
        (Project.issues project) in
  let one_query :=
    run.1 ≠ OutOfFuel ∧
    filter is_search run.2
    = filter is_search tr ++
      [search_issues (labels_query (JiraClient.get_project_id jira_client)
                                   identities) 0 50] in
  match exclude_files !! project_name with
  | Some excluded_files =>
      match exclude_file re_search file_name excluded_files with
      | inl e => run = (Raised e, tr)
      | inr _ => one_query
      end
  | None => one_query
  end.
Proof.
  intros Hne project_name file_name run identities one_query.
  subst one_query run identities.
  unfold process_projects. fold project_name file_name.
  destruct (Project.issues project) as [|v vs]; [done|].
  rewrite list_snyk_vulnerabilities_cons. simpl truthy. cbv iota.
  unfold mbind, M_bind, bind, emit, mret, M_ret, ret, raise.
  assert (∀ t, filter is_search t = filter is_search tr →
            let run := process_vulnerabilities str_score str_list date_after
                         (S fuel) jira_client
                         (map (vulnerability_obj (Project.branch project)
                                 project_name file_name jira_client) (v :: vs))
                         (labels_query (JiraClient.get_project_id jira_client)
                            (map (fun v0 => jira_snyk_id
                                    (JiraClient.get_jira_label_prefix jira_client)
                                    project_name file_name
                                    (Project.branch project) (id v0)) (v :: vs)))
                         (Project.id project) (Project.organization_slug project)
                         jira_epic_id t in
            run.1 ≠ OutOfFuel ∧
            filter is_search run.2
            = filter is_search tr ++
              [search_issues
                 (labels_query (JiraClient.get_project_id jira_client)
                    (map (fun v0 => jira_snyk_id
                            (JiraClient.get_jira_label_prefix jira_client)
                            project_name file_name
                            (Project.branch project) (id v0)) (v :: vs))) 0 50])
    as Hgood.
  { intros t Ht run.
    destruct (process_vulnerabilities_searches fuel jira_client
                (map (vulnerability_obj (Project.branch project)
                        project_name file_name jira_client) (v :: vs))
                (labels_query (JiraClient.get_project_id jira_client)
                   (map (fun v0 => jira_snyk_id
                           (JiraClient.get_jira_label_prefix jira_client)
                           project_name file_name
                           (Project.branch project) (id v0)) (v :: vs)))
                (Project.id project) (Project.organization_slug project)
                jira_epic_id t) as [H1 H2].
    split; [exact H1|]. subst run. by rewrite H2, Ht. }
  destruct (exclude_files !! project_name) as [[|p ps]|].
  - cbn. apply Hgood. by rewrite filter_snoc_false.
  - simpl truthy. cbv iota.
    destruct (exclude_file re_search file_name (p :: ps)) as [e|[]].
    + reflexivity.
    + apply Hgood. by rewrite !filter_snoc_false.
    + apply Hgood. by rewrite filter_snoc_false.
  - apply Hgood. by rewrite filter_snoc_false.
Qed.

End Paging.

(** ** The labels close the loop *)

Lemma startswith_app (prefix rest : string) :
  PyStr.startswith (prefix +:+ rest) prefix = true.
Proof.
  unfold PyStr.startswith. induction prefix as [|a p IH].
  - rewrite string_app_nil_l. by destruct rest.
  - rewrite string_app_cons. simpl.
    destruct (ascii_dec a a); [apply IH|done].
Qed.

Section Loop.
Context {score : Type}.
Variable str_score : score -> string.
Variable str_list : list string -> string.
Variable date_after : nat -> string.
Variable re_search : string -> string -> option bool.

(** X18. The label written on a created issue is what the reconciler looks
    for.  Take the findings built from any raw findings and the create
    requests built for them: against tracked issues that carry the labels of
    these requests, the same findings reconcile to nothing. *)
Theorem created_labels_make_findings_tracked
    (vulnerabilities : list (SnykIssue score))
    (project_branch project_name file_name : string) (jira_client : JiraClient.t)
    (jira_project_id snyk_project_id snyk_org_slug : string) :
  let findings :=
    (list_snyk_vulnerabilities vulnerabilities project_branch project_name
                               file_name jira_client).1 in
  let requests :=
    map (jira_issue str_score str_list date_after jira_project_id
                    snyk_project_id snyk_org_slug) findings in
  compare_jira_snyk findings
    (map (fun request => {| labels := NewIssue.labels request |}) requests)
    (JiraClient.get_jira_label_prefix jira_client)
  = [].
Proof.
  intros findings requests. subst requests.
  apply compare_jira_snyk_all_tracked. intros v Hv.
  exists {| labels := [get_jira_snyk_id v] |}. split; [|split].
  - rewrite map_map. apply list_elem_of_fmap. by exists v.
  - apply list_elem_of_here.
  - subst findings. rewrite list_snyk_vulnerabilities_fst in Hv.
    apply list_elem_of_fmap in Hv as (raw & -> & _). simpl.
    unfold jira_snyk_id. apply startswith_app.
Qed.


End Loop.

(** ** Component names *)

Lemma str_split_cons_inv (c : ascii) (s : string) :
  ∃ part parts, str_split c s = part :: parts.
Proof.
  destruct s as [|a s]; simpl; [by eexists _, _|].
  destruct (Ascii.eqb a c); [by eexists _, _|].
  destruct (str_split c s); by eexists _, _.
Qed.

Lemma string_concat_cons (sep x y : string) (l : list string) :
  String.concat sep (x :: y :: l) = x +:+ sep +:+ String.concat sep (y :: l).
Proof. reflexivity. Qed.

(** The parts of a split: there is at least one, none holds the separator,
    and joined with the separator they give the text back. *)
Lemma str_split_round_trip (c : ascii) (s : string) :
  str_split c s ≠ [] ∧
  Forall (fun part => PyStr.contains c part = false) (str_split c s) ∧
  String.concat (String c EmptyString) (str_split c s) = s.
Proof.
  split; [|split].
  - destruct (str_split_cons_inv c s) as (part & parts & ->). done.
  - induction s as [|a s IH]; simpl; [by repeat constructor|].
    destruct (Ascii.eqb a c) eqn:Ha; [by constructor|].
    destruct (str_split c s) as [|part parts]; [by repeat constructor; simpl; rewrite Ha|].
    apply Forall_cons in IH as [Hpart Hparts].
    constructor; [|done]. simpl. by rewrite Ha, Hpart.
  - induction s as [|a s IH]; simpl; [done|].
    destruct (str_split_cons_inv c s) as (part & parts & Hs).
    rewrite Hs in *. destruct (Ascii.eqb a c) eqn:Ha.
    + apply Ascii.eqb_eq in Ha as ->.
      by rewrite string_concat_cons, IH.
    + destruct parts as [|part' parts].
      * simpl in *. by rewrite IH.
      * rewrite string_concat_cons in *. by rewrite string_app_cons, IH.
Qed.

(** ** Start-up *)

Section MainFacts.
Context {score : Type}.
Variable str_score : score -> string.
Variable str_list : list string -> string.
Variable date_after : nat -> string.
Variable re_search : string -> string -> option bool.
Implicit Types (w : World score) (k : string → M exit_status).

Lemma required_present w (name msg : string) k (tr : list event) :
  env_truthy (environ w !! name) = true →
  required w name msg k tr
  = k (default EmptyString (environ w !! name))
      (tr ++ [logging_info (str_optional (environ w !! name))]).
Proof. intros H. unfold required. rewrite H. reflexivity. Qed.

Lemma required_missing w (name msg : string) k (tr : list event) :
  env_truthy (environ w !! name) = false →
  required w name msg k tr
  = (Ok (Exited 2),
     (tr ++ [logging_info (str_optional (environ w !! name))]) ++
     [logging_error msg]).
Proof. intros H. unfold required. rewrite H. reflexivity. Qed.

Lemma local_fatal (msg : string) (code : Z) : local (fatal msg code).
Proof.
  unfold fatal. apply local_bind; [apply local_emit|]. intros _. apply local_ret.
Qed.

Lemma local_required w (name msg : string) k :
  (∀ v, local (k v)) → local (required w name msg k).
Proof.
  intros Hk. unfold required. apply local_bind; [apply local_emit|].
  intros _. apply local_if; [apply Hk|apply local_fatal].
Qed.

Lemma silent_fatal (P : event → bool) (msg : string) (code : Z) :
  P (logging_error msg) = false → silent P (fatal msg code).
Proof.
  intros H. unfold fatal. apply silent_bind; [by apply silent_emit|].
  intros _. apply silent_ret.
Qed.

Lemma silent_required_value (P : event → bool) w (name msg : string) k :
  (∀ m, P (logging_info m) = false) → (∀ m, P (logging_error m) = false) →
  silent P (k (default EmptyString (environ w !! name))) →
  silent P (required w name msg k).
Proof.
  intros Hinfo Herror Hk. unfold required.
  apply silent_bind; [by apply silent_emit|].
  intros _. apply silent_if; [apply Hk|by apply silent_fatal].
Qed.

Lemma silent_required (P : event → bool) w (name msg : string) k :
  (∀ m, P (logging_info m) = false) → (∀ m, P (logging_error m) = false) →
  (∀ v, silent P (k v)) → silent P (required w name msg k).
Proof.
  intros Hinfo Herror Hk. unfold required.
  apply silent_bind; [by apply silent_emit|].
  intros _. apply silent_if; [apply Hk|by apply silent_fatal].
Qed.

(** What a required setting adds to the trace first is its logged value. *)
Lemma required_trace w (name msg : string) k (tr : list event) :
  (∀ v, local (k v)) →
  ∃ out, (required w name msg k tr).2
         = tr ++ logging_info (str_optional (environ w !! name)) :: out.
Proof.
  intros Hk. destruct (env_truthy (environ w !! name)) eqn:H.
  - rewrite required_present by done. rewrite local_trace by apply Hk.
    eexists. by rewrite <- app_assoc.
  - rewrite required_missing by done. eexists. by rewrite <- app_assoc.
Qed.

End MainFacts.

Ltac solve_local :=
  repeat first
    [ apply local_required; intros ?
    | apply local_fatal
    | apply local_raise
    | apply local_emit
    | apply local_ret
    | apply local_process_projects
    | apply local_if
    | apply local_bind; [|intros ?]
    | match goal with
      | |- local (match ?x with _ => _ end) => destruct x
      end ].

Section MainTheorems.
Context {score : Type}.
Variable str_score : score -> string.
Variable str_list : list string -> string.
Variable date_after : nat -> string.
Variable re_search : string -> string -> option bool.
Implicit Types (w : World score).

(** X21. A missing or empty required setting ends [main] with exit code 2
    before anything is asked of the tracker: up to there [main] has written
    log lines only. *)
Theorem main_missing_setting (fuel : nat) w (tr : list event)
    (mapping : gmap string (list string)) (name : string) :
  read_json w (setting_or w "EXCLUDE_FILES_FILE_PATH" "exclude_files.json")
  = inr mapping →
  name ∈ required_settings →
  env_truthy (environ w !! name) = false →
  ∃ logs,
    main str_score str_list date_after re_search fuel w tr
    = (Ok (Exited 2), tr ++ logs) ∧
    filter is_tracker_call logs = [] ∧ filter is_mutation logs = [].
Proof.
  intros Hjson Hname Hmissing. unfold main, load_mapping. rewrite Hjson.
  repeat
    match goal with
    | |- context [required ?w0 ?n ?msg ?k ?t] =>
        destruct (env_truthy (environ w0 !! n)) eqn:?;
        [ rewrite (required_present w0 n msg k t) by assumption
        | rewrite (required_missing w0 n msg k t) by assumption;
          eexists; split; [by rewrite <- !app_assoc|split; reflexivity] ]
    end.
  exfalso. unfold required_settings in Hname.
  repeat (apply elem_of_cons in Hname as [->|Hname]; [congruence|]).
  by apply elem_of_nil in Hname.
Qed.

(** X22. [main] writes the API tokens to the log: when the exclusion file is
    read and the Snyk token is set, its value is logged, and so is the value
    of the Jira token. *)
Theorem main_logs_tokens (fuel : nat) w (tr : list event)
    (mapping : gmap string (list string)) (snyk_api_token jira_api_token : string) :
  read_json w (setting_or w "EXCLUDE_FILES_FILE_PATH" "exclude_files.json")
  = inr mapping →
  environ w !! "SNYK_API_TOKEN" = Some snyk_api_token →
  snyk_api_token ≠ EmptyString →
  environ w !! "JIRA_API_TOKEN" = Some jira_api_token →
  let run := main str_score str_list date_after re_search fuel w tr in
  logging_info snyk_api_token ∈ run.2 ∧ logging_info jira_api_token ∈ run.2.
Proof.
  intros Hjson Hsnyk Hne Hjira run. subst run.
  unfold main, load_mapping. rewrite Hjson.
  rewrite required_present by (rewrite Hsnyk; by destruct snyk_api_token).
  match goal with
  | |- context [required ?w0 ?n ?msg ?k ?t] =>
      destruct (required_trace w0 n msg k t) as [out ->]; [intros ?; solve_local|]
  end.
  rewrite Hsnyk, Hjira. simpl. rewrite !elem_of_app, !elem_of_cons. auto.
Qed.

(** X23. Any non-empty value of [DRY_RUN], whatever it says, makes the whole
    run dry: [main] then records no create call and no link-to-epic call. *)
Theorem main_dry_run_no_mutation (fuel : nat) w (tr : list event) :
  env_truthy (environ w !! "DRY_RUN") = true →
  filter is_mutation (main str_score str_list date_after re_search fuel w tr).2
  = filter is_mutation tr.
Proof.
  intros Hdry. revert tr.
  change (silent is_mutation (main str_score str_list date_after re_search fuel w)).
  unfold main, load_mapping.
  destruct (read_json w _) as [[]|mapping];
    [by apply silent_fatal|apply silent_ret|].
  repeat (apply silent_required; [done|done|intros ?]).
  rewrite Hdry. apply silent_bind; [by apply silent_emit|]. intros _.
  destruct (snyk_client w _) as [[]|projects];
    try (by apply silent_fatal); try apply silent_raise.
  destruct (projects _ _) as [e|project]; [apply silent_raise|].
  destruct (jira_connect w _ _) as [[]|jira];
    try (by apply silent_fatal); try apply silent_raise.
  apply silent_bind; [|intros _; apply silent_ret].
  by apply silent_process_projects.
Qed.

Lemma other_components_create_issues
    (jira_client : JiraClient.t) (to_create : list (VulnerabilityData score))
    (jira_project_id snyk_project_id snyk_org_slug : string) :
  (∀ v, v ∈ to_create →
        get_component_list v = JiraClient.get_component_list jira_client) →
  other_components
    (map get_component_dict_list (JiraClient.get_component_list jira_client))
    (create_issues
       (map (jira_issue str_score str_list date_after jira_project_id
                        snyk_project_id snyk_org_slug) to_create))
  = false.
Proof.
  intros Hall. simpl. apply negb_false_iff, forallb_forall.
  intros fields Hin. apply in_map_iff in Hin as (v & <- & Hv).
  apply bool_decide_eq_true. simpl. f_equal. apply Hall.
  by apply list_elem_of_In.
Qed.

(** X20. The components of every issue [main] asks the tracker to create
    are the comma-separated parts of [JIRA_COMPONENT_NAMES], each as a
    [name] entry and taken as it is: there is at least one part, none holds a
    comma, and joined with commas the parts give the setting back. *)
Theorem main_component_names (fuel : nat) w (tr : list event)
    (field_list : list NewIssue.t) (fields : NewIssue.t) :
  let setting := default EmptyString (environ w !! "JIRA_COMPONENT_NAMES") in
  let names := str_split "," setting in
  create_issues field_list
  ∈ (main str_score str_list date_after re_search fuel w tr).2 →
  create_issues field_list ∉ tr →
  fields ∈ field_list →
  NewIssue.components fields = map get_component_dict_list names ∧
  names ≠ [] ∧
  Forall (fun name => PyStr.contains "," name = false) names ∧
  String.concat "," names = setting.
Proof.
  intros setting names Hrun Htr Hfields.
  split; [|apply str_split_round_trip].
  assert (silent (other_components (map get_component_dict_list names))
            (main str_score str_list date_after re_search fuel w)) as Hsilent.
  { unfold main, load_mapping.
    destruct (read_json w _) as [[]|mapping];
      [by apply silent_fatal|apply silent_ret|].
    repeat (apply silent_required_value; [done|done|]).
    apply silent_bind.
    { apply silent_if; [by apply silent_emit|apply silent_ret]. }
    intros _.
    destruct (snyk_client w _) as [[]|projects];
      try (by apply silent_fatal); try apply silent_raise.
    destruct (projects _ _) as [e|project]; [apply silent_raise|].
    destruct (jira_connect w _ _) as [[]|jira];
      try (by apply silent_fatal); try apply silent_raise.
    apply silent_bind; [|intros _; apply silent_ret].
    apply silent_process_projects; [done..|].
    intros _. split; [|done].
    intros to_create jp sp slug Hall.
    by apply (other_components_create_issues _ to_create jp sp slug) in Hall. }
  destruct (other_components (map get_component_dict_list names)
                             (create_issues field_list)) eqn:Hother.
  - exfalso. apply Htr.
    assert (create_issues field_list
            ∈ filter (other_components (map get_component_dict_list names)) tr)
      as Hin.
    { rewrite <- (Hsilent tr). apply list_elem_of_filter. split; [|done].
      by rewrite Hother. }
    by apply list_elem_of_filter in Hin as [_ ?].
  - simpl in Hother. apply negb_false_iff in Hother.
    rewrite forallb_forall in Hother.
    apply list_elem_of_In, Hother, bool_decide_eq_true in Hfields. done.
Qed.

End MainTheorems.

(** ** Instances *)

(** The creation call raises [SystemError]. *)
Lemma create_jira_issues_swallows_SystemError_witness :
  create_jira_issues (fun s => s) Sample.str_list Sample.date_after
    (sample_live_client (sample_tracker_with (inr []) (inl SystemError) (inr tt)))
    [Sample.finding "p:a"] "PROJ" "pid" "slug" "EPIC" []
  = (Ok tt,
     [create_issues
        [jira_issue (fun s => s) Sample.str_list Sample.date_after
                    "PROJ" "pid" "slug" (Sample.finding "p:a")];
      logging_error "failed to create jira issues"]).
Proof.
  refine (proj1 (create_jira_issues_swallows_SystemError
                   (fun s => s) Sample.str_list Sample.date_after
                   (sample_live_client
                      (sample_tracker_with (inr []) (inl SystemError) (inr tt)))
                   [Sample.finding "p:a"] "PROJ" "pid" "slug" "EPIC" [] _) _);
    reflexivity.
Defined.

(** The creation call raises another exception. *)
Lemma create_jira_issues_other_exception_witness :
  create_jira_issues (fun s => s) Sample.str_list Sample.date_after
    (sample_live_client (sample_tracker_with (inr []) (inl JIRAError) (inr tt)))
    [Sample.finding "p:a"] "PROJ" "pid" "slug" "EPIC" []
  = (Raised JIRAError,
     [create_issues
        [jira_issue (fun s => s) Sample.str_list Sample.date_after
                    "PROJ" "pid" "slug" (Sample.finding "p:a")]]).
Proof.
  apply (create_jira_issues_other_exception
           (fun s => s) Sample.str_list Sample.date_after
           (sample_live_client
              (sample_tracker_with (inr []) (inl JIRAError) (inr tt)))
           [Sample.finding "p:a"] "PROJ" "pid" "slug" "EPIC" [] JIRAError);
    [reflexivity|discriminate|reflexivity].
Defined.

(** Creation and link succeed: with the key [issue] in the created entry,
    and without it. *)
Lemma create_jira_issues_live_never_returns_witness :
  create_jira_issues (fun s => s) Sample.str_list Sample.date_after
    (Sample.jira_client false []) [Sample.finding "p:a"]
    "PROJ" "pid" "slug" "EPIC" []
  = (Raised TypeError,
     [create_issues
        [jira_issue (fun s => s) Sample.str_list Sample.date_after
                    "PROJ" "pid" "slug" (Sample.finding "p:a")];
      add_issues_to_epic "EPIC" ["status"; "error"; "issue"; "input_fields"];
      logging_info "Created JIRA issue key: PROJ-1"]) ∧
  create_jira_issues (fun s => s) Sample.str_list Sample.date_after
    (sample_live_client
       (sample_tracker_with (inr []) (inr [[("status", "Error")]]) (inr tt)))
    [Sample.finding "p:a"] "PROJ" "pid" "slug" "EPIC" []
  = (Raised KeyError,
     [create_issues
        [jira_issue (fun s => s) Sample.str_list Sample.date_after
                    "PROJ" "pid" "slug" (Sample.finding "p:a")];
      add_issues_to_epic "EPIC" ["status"]]).
Proof.
  split.
  - apply (create_jira_issues_live_never_returns
             (fun s => s) Sample.str_list Sample.date_after
             (Sample.jira_client false []) [Sample.finding "p:a"]
             "PROJ" "pid" "slug" "EPIC" []
             [[("status", "Success"); ("error", "None"); ("issue", "PROJ-1");
               ("input_fields",
                NewIssue.summary
                  (jira_issue (fun s => s) Sample.str_list Sample.date_after
                              "PROJ" "pid" "slug" (Sample.finding "p:a")))]]);
      reflexivity.
  - apply (create_jira_issues_live_never_returns
             (fun s => s) Sample.str_list Sample.date_after
             (sample_live_client
                (sample_tracker_with (inr []) (inr [[("status", "Error")]])
                                     (inr tt)))
             [Sample.finding "p:a"] "PROJ" "pid" "slug" "EPIC" []
             [[("status", "Error")]]);
      reflexivity.
Defined.

(** The search raises. *)
Lemma process_vulnerabilities_search_fails_witness :
  process_vulnerabilities (fun s => s) Sample.str_list Sample.date_after 1
    (sample_live_client (sample_tracker_with (inl JIRAError) (inr []) (inr tt)))
    [Sample.finding "p:a"] "query" "pid" "slug" "EPIC" []
  = (Raised JIRAError, [search_issues "query" 0 50]).
Proof.
  apply (process_vulnerabilities_search_fails
           (fun s => s) Sample.str_list Sample.date_after 0
           (sample_live_client
              (sample_tracker_with (inl JIRAError) (inr []) (inr tt)))
           [Sample.finding "p:a"] "query" "pid" "slug" "EPIC" [] JIRAError).
  reflexivity.
Defined.

(** A live run over two findings that are both tracked. *)
Lemma process_vulnerabilities_all_tracked_witness :
  process_vulnerabilities (fun s => s) Sample.str_list Sample.date_after 1
    (Sample.jira_client false [ {| labels := ["p:a"; "p:b"] |} ])
    [Sample.finding "p:a"; Sample.finding "p:b"] "query" "pid" "slug" "EPIC" []
  = (Ok tt, [search_issues "query" 0 50]).
Proof.
  apply (process_vulnerabilities_all_tracked
           (fun s => s) Sample.str_list Sample.date_after 0
           (Sample.jira_client false [ {| labels := ["p:a"; "p:b"] |} ])
           [Sample.finding "p:a"; Sample.finding "p:b"]
           "query" "pid" "slug" "EPIC" [] [ {| labels := ["p:a"; "p:b"] |} ]).
  - reflexivity.
  - each_member v Hv; apply elem_of_jira_issue_labels; eval_decide.
Defined.

(** A dry run over a project with one untracked finding. *)
Lemma process_projects_dry_run_no_mutation_witness :
  filter is_mutation
    (process_projects (fun s => s) Sample.str_list Sample.date_after
       Sample.literal_search 3 (Sample.jira_client true [])
       (Sample.project [Sample.snyk_issue "SNYK-1" "high"]) ∅ "EPIC" []).2
  = [].
Proof.
  apply (process_projects_dry_run_no_mutation
           (fun s => s) Sample.str_list Sample.date_after Sample.literal_search 3
           (Sample.jira_client true [])
           (Sample.project [Sample.snyk_issue "SNYK-1" "high"]) ∅ "EPIC" []).
  reflexivity.
Defined.

(** A live run over a project with two findings: with a pattern that is
    not found, and with a pattern that does not compile. *)
Lemma process_projects_one_query_witness :
  (let run := process_projects (fun s => s) Sample.str_list Sample.date_after
                Sample.literal_search 1 (Sample.jira_client false [])
                (Sample.project [Sample.snyk_issue "A" "high";
                                 Sample.snyk_issue "B" "low"])
                {[ "org/repo" := ["Makefile"] ]} "EPIC" [] in
   run.1 ≠ OutOfFuel ∧
   filter is_search run.2
   = [search_issues
        (labels_query "PROJ" ["p:org/repo:Dockerfile:main:A";
                              "p:org/repo:Dockerfile:main:B"]) 0 50]) ∧
  process_projects (fun s => s) Sample.str_list Sample.date_after
    Sample.literal_search 1 (Sample.jira_client false [])
    (Sample.project [Sample.snyk_issue "A" "high"; Sample.snyk_issue "B" "low"])
    {[ "org/repo" := ["["; "Dockerfile"] ]} "EPIC" []
  = (Raised ReError, []).
Proof.
  split.
  - refine (process_projects_one_query
              (fun s => s) Sample.str_list Sample.date_after
              Sample.literal_search 0 (Sample.jira_client false [])
              (Sample.project [Sample.snyk_issue "A" "high";
                               Sample.snyk_issue "B" "low"])
              {[ "org/repo" := ["Makefile"] ]} "EPIC" [] _).
    discriminate.
  - refine (process_projects_one_query
              (fun s => s) Sample.str_list Sample.date_after
              Sample.literal_search 0 (Sample.jira_client false [])
              (Sample.project [Sample.snyk_issue "A" "high";
                               Sample.snyk_issue "B" "low"])
              {[ "org/repo" := ["["; "Dockerfile"] ]} "EPIC" [] _).
    discriminate.
Defined.

(** The epic id is not set. *)
Lemma main_missing_setting_witness :
  ∃ logs,
    main (fun s => s) Sample.str_list Sample.date_after Sample.literal_search 3
      (sample_world (delete "JIRA_EPIC_ID" sample_settings) ∅
                    [Sample.snyk_issue "SNYK-1" "high"] []) []
    = (Ok (Exited 2), [] ++ logs) ∧
    filter is_tracker_call logs = [] ∧ filter is_mutation logs = [].
Proof.
  apply (main_missing_setting
           (fun s => s) Sample.str_list Sample.date_after Sample.literal_search 3
           (sample_world (delete "JIRA_EPIC_ID" sample_settings) ∅
                         [Sample.snyk_issue "SNYK-1" "high"] [])
           [] ∅ "JIRA_EPIC_ID").
  - reflexivity.
  - eval_decide.
  - vm_compute. reflexivity.
Defined.

(** Every setting is present. *)
Lemma main_logs_tokens_witness :
  let run := main (fun s => s) Sample.str_list Sample.date_after
               Sample.literal_search 3
               (sample_world sample_settings ∅
                             [Sample.snyk_issue "SNYK-1" "high"] []) [] in
  logging_info "snyk-secret" ∈ run.2 ∧ logging_info "jira-secret" ∈ run.2.
Proof.
  apply (main_logs_tokens
           (fun s => s) Sample.str_list Sample.date_after Sample.literal_search 3
           (sample_world sample_settings ∅ [Sample.snyk_issue "SNYK-1" "high"] [])
           [] ∅ "snyk-secret" "jira-secret").
  - reflexivity.
  - vm_compute. reflexivity.
  - discriminate.
  - vm_compute. reflexivity.
Defined.

(** [DRY_RUN] set to the text [false]. *)
Lemma main_dry_run_no_mutation_witness :
  filter is_mutation
    (main (fun s => s) Sample.str_list Sample.date_after Sample.literal_search 3
       (sample_world (<["DRY_RUN" := "false"]> sample_settings) ∅
                     [Sample.snyk_issue "SNYK-1" "high"] []) []).2
  = [].
Proof.
  apply (main_dry_run_no_mutation
           (fun s => s) Sample.str_list Sample.date_after Sample.literal_search 3
           (sample_world (<["DRY_RUN" := "false"]> sample_settings) ∅
                         [Sample.snyk_issue "SNYK-1" "high"] []) []).
  vm_compute. reflexivity.
Defined.

(** ** Identities within one artifact *)




(** A live run with the setting [comp1,comp2] and one untracked finding. *)
Lemma main_component_names_witness :
  let jira_client :=
    {| JiraClient.client := Sample.tracker [];
       JiraClient.get_jira_label_prefix := "snyk-jira-integration:";
       JiraClient.get_project_id := "PROJ";
       JiraClient.get_component_list := ["comp1"; "comp2"];
       JiraClient.is_dry_run := false |} in
  let fields :=
    jira_issue (fun s => s) Sample.str_list Sample.date_after "PROJ" "pid" "slug"
      (vulnerability_obj "main" "org/repo" "Dockerfile" jira_client
                         (Sample.snyk_issue "SNYK-1" "high")) in
  NewIssue.components fields = [[("name", "comp1")]; [("name", "comp2")]] ∧
  ["comp1"; "comp2"] ≠ [] ∧
  Forall (fun name => PyStr.contains "," name = false) ["comp1"; "comp2"] ∧
  String.concat "," ["comp1"; "comp2"] = "comp1,comp2".
Proof.
  intros jira_client fields.
  refine (main_component_names
            (fun s => s) Sample.str_list Sample.date_after Sample.literal_search 3
            (sample_world sample_settings ∅ [Sample.snyk_issue "SNYK-1" "high"] [])
            [] [fields] fields _ _ _).
  - vm_compute. do 10 apply list_elem_of_further. apply list_elem_of_here.
  - apply not_elem_of_nil.
  - apply list_elem_of_here.
Defined.
